(** * Participant service of the event-registration backend

    A shallow embedding of the request handlers of the participant
    controller (registerParticipant, getEventParticipants,
    getParticipantById, updateParticipant, deleteParticipant,
    checkInParticipant, bulkCheckIn) over an explicit model of the two
    tables they touch, followed by the properties of the handlers. *)

From Stdlib Require Import ZArith String Ascii List Lia DecimalString.
From Stdlib Require Import Strings.Byte.
From stdpp Require Import base option list gmap strings pretty.

Open Scope string_scope.
Open Scope Z_scope.

(** ** JavaScript values and objects *)

(** The values that travel in request bodies and in Participant rows.
    Numbers are integers; fractional numbers are outside the model. *)
#[warnings="-register-all"]
Inductive value : Type :=
  | VUndef
  | VNull
  | VBool (b : bool)
  | VNum (n : Z)
  | VStr (s : string)
  | VArr (l : list value).

Lemma value_eq_dec : forall a b : value, {a = b} + {a <> b}.
Proof.
  fix IH 1.
  intros a b; destruct a, b; try (right; discriminate); try (left; reflexivity).
  - destruct (Bool.bool_dec b b0) as [->|N]; [left; reflexivity | right; congruence].
  - destruct (Z.eq_dec n n0) as [->|N]; [left; reflexivity | right; congruence].
  - destruct (String.string_dec s s0) as [->|N]; [left; reflexivity | right; congruence].
  - destruct (List.list_eq_dec IH l l0) as [->|N]; [left; reflexivity | right; congruence].
Defined.

#[global] Instance value_eq_decision : EqDecision value := value_eq_dec.
#[global] Instance value_inhabited : Inhabited value := populate VUndef.

(** A JavaScript object used as a record of named fields. *)
Abbreviation obj := (gmap string value).

(** Property read [o.k]: an absent property reads as [undefined]. *)
Definition get (o : obj) (k : string) : value := default VUndef (o !! k).

(** Truthiness, as used by [if (x)], [!x], [x && y] and [x ? a : b]. *)
Definition truthy (v : value) : bool :=
  match v with
  | VUndef | VNull => false
  | VBool b => b
  | VNum n => negb (n =? 0)
  | VStr s => negb (String.eqb s "")
  | VArr _ => true
  end.

(** [Array.isArray]. *)
Definition isArray (v : value) : bool :=
  match v with VArr _ => true | _ => false end.

(** String coercion inside a template literal. *)
Fixpoint toString (v : value) : string :=
  match v with
  | VUndef => "undefined"
  | VNull => "null"
  | VBool true => "true"
  | VBool false => "false"
  | VNum n => pretty n
  | VStr s => s
  | VArr l =>
      (fix join (xs : list value) : string :=
         match xs with
         | [] => ""
         | x :: rest =>
             let e := match x with VUndef | VNull => "" | _ => toString x end in
             match rest with
             | [] => e
             | _ :: _ => e +:+ "," +:+ join rest
             end
         end) l
  end.

(** ** Ticket numbers *)

(** [Buffer.toString('hex')]: two lower-case hexadecimal digits per byte. *)
Definition hex_digit (n : N) : ascii :=
  if (n <? 10)%N then ascii_of_N (48 + n) else ascii_of_N (87 + n).

Definition byte_to_hex (b : byte) : string :=
  let n := Byte.to_N b in
  String (hex_digit (n / 16)) (String (hex_digit (n mod 16)) EmptyString).

Fixpoint toString_hex (bs : list byte) : string :=
  match bs with
  | [] => ""
  | b :: rest => byte_to_hex b +:+ toString_hex rest
  end.

(** [String.prototype.toUpperCase] on ASCII text. *)
Definition upper_ascii (c : ascii) : ascii :=
  let n := N_of_ascii c in
  if ((97 <=? n) && (n <=? 122))%N then ascii_of_N (n - 32) else c.

Fixpoint toUpperCase (s : string) : string :=
  match s with
  | EmptyString => EmptyString
  | String c rest => String (upper_ascii c) (toUpperCase rest)
  end.

(** The character class [[0-9A-F]]. *)
Definition is_upper_hex (c : ascii) : bool :=
  let n := N_of_ascii c in
  (((48 <=? n) && (n <=? 57)) || ((65 <=? n) && (n <=? 70)))%N.

Fixpoint all_upper_hex (s : string) : bool :=
  match s with
  | EmptyString => true
  | String c rest => is_upper_hex c && all_upper_hex rest
  end.

(** The whole-string pattern [TKT-[0-9A-F]{8}]. *)
Definition matches_ticket_pattern (s : string) : bool :=
  match s with
  | String "T" (String "K" (String "T" (String "-" rest))) =>
      Nat.eqb (String.length rest) 8 && all_upper_hex rest
  | _ => false
  end.

(** ** Tables *)

(** An Event row.  The handlers read these columns and change the two
    counters only through [increment] and [decrement].  Event ids, user ids,
    roles and statuses are strings. *)
Record Event : Type := {
  event_id : string;
  name : value;
  date : value;
  venue : value;
  status : string;
  capacity : option Z;          (* null = unlimited *)
  totalRegistrations : Z;
  totalAttendees : Z;
  organizerId : string;
  requiresApproval : bool;
}.

(** A job handed to the email queue. *)
Record EmailJob : Type := {
  to : value;
  subject : string;
  html : string;
}.

(** The persistent state: each table is the list of its rows in insertion
    order, the primary key being the [id] column.  A Participant row is an
    object, because rows are created and updated from request bodies. *)
Record Db : Type := {
  events : list Event;
  participants : list obj;
  emailQueue : list EmailJob;
}.

Definition set_events (f : list Event -> list Event) (db : Db) : Db :=
  {| events := f (events db); participants := participants db;
     emailQueue := emailQueue db |}.

Definition set_participants (f : list obj -> list obj) (db : Db) : Db :=
  {| events := events db; participants := f (participants db);
     emailQueue := emailQueue db |}.

Definition set_emailQueue (f : list EmailJob -> list EmailJob) (db : Db) : Db :=
  {| events := events db; participants := participants db;
     emailQueue := f (emailQueue db) |}.

(** ** Effects: state passing with exceptions *)

(** An awaited call either returns or throws; the state it leaves behind
    is kept in both cases (no handler opens a transaction). *)
Inductive result (A : Type) : Type :=
  | Returned (a : A)
  | Thrown (e : string).
Arguments Returned {A} a.
Arguments Thrown {A} e.

Definition M (A : Type) : Type := Db -> result A * Db.

Definition ret {A} (a : A) : M A := fun db => (Returned a, db).

Definition throw {A} (e : string) : M A := fun db => (Thrown e, db).

Definition bind {A B} (m : M A) (k : A -> M B) : M B :=
  fun db =>
    match m db with
    | (Returned a, db') => k a db'
    | (Thrown e, db') => (Thrown e, db')
    end.

Notation "'let*' x ':=' m 'in' k" := (bind m (fun x => k))
  (at level 10, x pattern, m at level 100, k at level 200).
Notation "m ';;' k" := (bind m (fun _ => k))
  (at level 100, k at level 200, right associativity).

Definition modify (f : Db -> Db) : M unit := fun db => (Returned tt, f db).
Definition gets {A} (f : Db -> A) : M A := fun db => (Returned (f db), db).

(** ** HTTP responses *)

Inductive Body : Type :=
  | BError (error : string)
  | BParticipant (participant : obj) (message : option string)
  | BParticipantWithEvent (participant : obj)
      (event : option (string * value * value * value))
  | BList (rows : list obj) (total : Z) (page : option Z) (totalPages : option Z)
  | BMessage (message : string)
  | BBulk (message : string) (updated : list obj).

Record Response : Type := { code : Z; json : Body }.

Definition res (c : Z) (b : Body) : Response := {| code := c; json := b |}.

(** [try { ... } catch (err) { console.error(err); res.status(500).json(...) }] *)
Definition try_catch (m : M Response) (failure : string) (db : Db) : Response * Db :=
  match m db with
  | (Returned r, db') => (r, db')
  | (Thrown _, db') => (res 500 (BError failure), db')
  end.

(** ** Numbers in the query string *)

(** A JavaScript number restricted to integers; [None] stands for [NaN]
    and for the infinities.  Fractions, and the rounding of integers beyond
    2^53, are outside the model.  [toNumber] reads a string as a whole
    decimal integer literal. *)
Definition num : Type := option Z.

Definition literal (s : string) : num := Z.of_int <$> NilEmpty.int_of_string s.

Definition toNumber (v : value) : num :=
  match v with
  | VUndef => None
  | VNull => Some 0
  | VBool b => Some (if b then 1 else 0)
  | VNum n => Some n
  | VStr s => literal s
  | VArr _ => None
  end.

(** [parseInt]: the argument is turned into a string, leading white space
    and a sign are skipped, and the longest prefix of digits is read, in base
    16 after [0x] and in base 10 otherwise; without a digit the result is
    NaN.  An integer argument is its own value. *)
Definition is_space (c : ascii) : bool :=
  let n := N_of_ascii c in ((n =? 32) || ((9 <=? n) && (n <=? 13)))%N.

Fixpoint skip_spaces (s : string) : string :=
  match s with
  | String c rest => if is_space c then skip_spaces rest else s
  | EmptyString => s
  end.

Definition digit_value (base : Z) (c : ascii) : option Z :=
  let n := Z.of_N (N_of_ascii c) in
  let d := if (48 <=? n) && (n <=? 57) then Some (n - 48)
           else if (97 <=? n) && (n <=? 102) then Some (n - 87)
           else if (65 <=? n) && (n <=? 70) then Some (n - 55)
           else None in
  d ≫= fun x => if x <? base then Some x else None.

Fixpoint digits_prefix (base : Z) (s : string) (acc : num) : num :=
  match s with
  | String c rest =>
      match digit_value base c with
      | Some d => digits_prefix base rest (Some (base * default 0 acc + d))
      | None => acc
      end
  | EmptyString => acc
  end.

Definition unsigned_prefix (s : string) : num :=
  match s with
  | String "0" (String "x" rest) | String "0" (String "X" rest) =>
      digits_prefix 16 rest None
  | _ => digits_prefix 10 s None
  end.

Definition parseInt (v : value) : num :=
  match v with
  | VNum n => Some n
  | _ =>
      match skip_spaces (toString v) with
      | String "-" rest => Z.opp <$> unsigned_prefix rest
      | String "+" rest => unsigned_prefix rest
      | s => unsigned_prefix s
      end
  end.

Definition num_sub (a b : num) : num := a ≫= fun x => b ≫= fun y => Some (x - y).
Definition num_mul (a b : num) : num := a ≫= fun x => b ≫= fun y => Some (x * y).

(** [Math.ceil(count / limit)]; a zero divisor gives no finite number. *)
Definition ceil_div (count : Z) (limit : num) : num :=
  limit ≫= fun l => if l =? 0 then None else Some (- ((- count) / l)).

(** Destructuring default [{ k = d }]: used when the property is undefined. *)
Definition or_default (v d : value) : value :=
  match v with VUndef => d | _ => v end.

(** ** Collaborators *)

Record TemplateArgs : Type := {
  t_name : string;
  t_eventName : value;
  t_eventDate : value;
  t_eventVenue : value;
  t_ticketNumber : value;
}.

(** The filter object built by the listing. *)
Record Where : Type := {
  where_eventId : value;
  where_status : option value;
  where_checkedIn : option bool;
  where_or_iLike : option string;   (* firstName, lastName or email iLike *)
}.

(** What a request reads from outside the two tables: the random source,
    the clock ([clock k] is what the k-th [new Date()] of the request
    returns), the key the store gives to the next created row, the email
    template (utils/emailTemplates.js, not part of the sources), whether the
    queue is failing, and the query engine of the store (filter, order by
    registrationDate descending, limit and offset; it may reject the
    query). *)
Record Env : Type := {
  entropy : nat -> byte;
  clock : nat -> value;
  generatedId : value;
  registrationConfirmationTemplate : TemplateArgs -> string;
  queueThrows : bool;
  findAndCountAll : Where -> num -> num -> list obj -> result (Z * list obj);
}.

(** [crypto.randomBytes(n)] *)
Definition randomBytes (env : Env) (n : nat) : list byte :=
  entropy env <$> seq 0 n.

(** The k-th [new Date()] of a request, counting from 0. *)
Definition new_Date (env : Env) (k : nat) : value := clock env k.

(** The time at which the request is handled: its first clock reading. *)
Definition now (env : Env) : value := clock env 0.

(** Modelled from the spec: the queue module (queues/emailQueue.js) is not
    part of the sources.  [addEmailJob] accepts a job [{to, subject, html}]
    and enqueues it for asynchronous delivery; a failure of the queue
    surfaces as an exception of the call. *)
Definition addEmailJob (env : Env) (job : EmailJob) : M unit :=
  if queueThrows env then throw "queue unavailable"
  else modify (set_emailQueue (fun q => (q ++ [job])%list)).

(** ** Store operations *)

(** Modelled from the spec: the model declarations (models/index.js) are
    not part of the sources.  The two modules below give the operations the
    handlers call on the Event store (findByPk, increment and decrement of a
    counter by a count) and on the Participant store (create, read, update,
    delete and the filtered queries), over the tables of [Db].  Writes
    always succeed: validation and constraint errors of the store are
    outside the model. *)

Module EventModel.

(** The row whose id is [k], if any. *)
Definition byPk (k : value) (rows : list Event) : option Event :=
  List.find (fun e => bool_decide (VStr (event_id e) = k)) rows.

(** [Event.findByPk(k)]: that row, or null. *)
Definition findByPk (k : value) : M (option Event) :=
  gets (fun db => byPk k (events db)).

Inductive counter : Type := TotalRegistrations | TotalAttendees.

Definition add (c : counter) (by_ : Z) (e : Event) : Event :=
  match c with
  | TotalRegistrations =>
      {| event_id := event_id e; name := name e; date := date e; venue := venue e;
         status := status e; capacity := capacity e;
         totalRegistrations := totalRegistrations e + by_;
         totalAttendees := totalAttendees e;
         organizerId := organizerId e; requiresApproval := requiresApproval e |}
  | TotalAttendees =>
      {| event_id := event_id e; name := name e; date := date e; venue := venue e;
         status := status e; capacity := capacity e;
         totalRegistrations := totalRegistrations e;
         totalAttendees := totalAttendees e + by_;
         organizerId := organizerId e; requiresApproval := requiresApproval e |}
  end.

(** [event.increment(c, { by })]: one UPDATE adding [by] to the column
    of the row with the instance's id. *)
Definition increment (event : Event) (c : counter) (by_ : Z) : M unit :=
  modify (set_events (List.map (fun e =>
    if String.eqb (event_id e) (event_id event) then add c by_ e else e))).

(** [event.decrement(c)] *)
Definition decrement (event : Event) (c : counter) : M unit :=
  increment event c (-1).

End EventModel.

Module ParticipantModel.

(** Modelled from the spec: the column defaults of the Participant model.
    A created row gets, for the columns the caller leaves out, a generated
    id, checkedIn = false, checkInTime = null, checkInMethod = "manual" and
    the creation time as registrationDate. *)
Definition defaults (env : Env) : obj :=
  {[ "id" := generatedId env;
     "checkedIn" := VBool false;
     "checkInTime" := VNull;
     "checkInMethod" := VStr "manual";
     "registrationDate" := now env ]}.

Definition has_id (k : value) (row : obj) : bool := bool_decide (get row "id" = k).

Definition byPk (k : value) (rows : list obj) : option obj :=
  List.find (has_id k) rows.

(** [Participant.findByPk(k)] *)
Definition findByPk (k : value) : M (option obj) :=
  gets (fun db => byPk k (participants db)).

(** The where-clause [{ eventId, email }]. *)
Definition registered_as (eventId email : value) (row : obj) : bool :=
  bool_decide (get row "eventId" = eventId) && bool_decide (get row "email" = email).

(** [Participant.findOne({ where: { eventId, email } })].  The lookup is by
    equality of the two columns; the store itself refuses a where clause
    with an undefined value, so the properties about stored registrations are
    stated for requests whose body carries an email. *)
Definition findOne (eventId email : value) : M (option obj) :=
  gets (fun db => List.find (registered_as eventId email) (participants db)).

(** The where-clause [{ id: ids }]. *)
Definition id_in (ids : list value) (row : obj) : bool :=
  bool_decide (get row "id" ∈ ids).

(** [Participant.findAll({ where: { id: ids } })]: the rows whose id is
    one of [ids], in table order. *)
Definition findAll (ids : list value) : M (list obj) :=
  gets (fun db => List.filter (id_in ids) (participants db)).

(** [Participant.create(values)]: the given values win over the defaults. *)
Definition create (env : Env) (values : obj) : M obj :=
  let row := values ∪ defaults env in
  modify (set_participants (fun rows => (rows ++ [row])%list));; ret row.

(** [participant.update(values)]: writes the given columns to the row of
    the instance and returns the refreshed instance.  The primary key of a
    stored instance is not rewritten: an [id] among the values is ignored. *)
Definition update (participant : obj) (values : obj) : M obj :=
  let values := delete "id" values in
  modify (set_participants (List.map (fun row =>
    if has_id (get participant "id") row then values ∪ row else row)));;
  ret (values ∪ participant).

(** [participant.destroy()] *)
Definition destroy (participant : obj) : M unit :=
  modify (set_participants (List.filter (fun row =>
    negb (has_id (get participant "id") row)))).

(** [Participant.findAndCountAll({ where, limit, offset, order })] *)
Definition findAndCountAll (env : Env) (w : Where) (limit offset : num)
  : M (Z * list obj) :=
  fun db => (findAndCountAll env w limit offset (participants db), db).

End ParticipantModel.

(** ** Requests *)

(** The identity attached to the request by the authentication layer. *)
Record User : Type := { user_id : string; role : string }.

Record Request : Type := {
  params : obj;
  query : obj;
  body : obj;
  user : User;
}.

(** Reading a property of [null] throws a TypeError. *)
Definition deref {A} (o : option A) : M A :=
  match o with
  | Some a => ret a
  | None => throw "TypeError: Cannot read properties of null"
  end.

(** [event.organizerId !== req.user.id && req.user.role !== 'admin'] *)
Definition access_denied (event : Event) (u : User) : bool :=
  negb (String.eqb (organizerId event) (user_id u)) && negb (String.eqb (role u) "admin").

(** A nullable integer column as a value. *)
Definition nullable (c : option Z) : value := from_option VNum VNull c.

(** ** The handlers *)

Definition registerParticipant (env : Env) (req : Request) : Db -> Response * Db :=
  try_catch (
    let eventId := get (params req) "eventId" in
    let* event := EventModel.findByPk eventId in
    match event with
    | None => ret (res 404 (BError "Event not found"))
    | Some event =>
    if negb (String.eqb (status event) "published") then
      ret (res 400 (BError "Event is not open for registration"))
    else
    (* Check capacity *)
    if truthy (nullable (capacity event))
       && (default 0 (capacity event) <=? totalRegistrations event) then
      ret (res 400 (BError "Event is at full capacity"))
    else
    (* Check if already registered *)
    let* existing := ParticipantModel.findOne eventId (get (body req) "email") in
    match existing with
    | Some _ => ret (res 400 (BError "Already registered for this event"))
    | None =>
    (* Generate unique ticket number *)
    let ticketNumber := "TKT-" +:+ toUpperCase (toString_hex (randomBytes env 4)) in
    let* participant := ParticipantModel.create env
      (<["status" := VStr (if requiresApproval event then "registered" else "confirmed")]>
        (<["ticketNumber" := VStr ticketNumber]>
          (<["eventId" := eventId]> (body req)))) in
    (* Update event registration count *)
    EventModel.increment event EventModel.TotalRegistrations 1;;
    (* Send confirmation email via queue *)
    let html := registrationConfirmationTemplate env
      {| t_name := toString (get participant "firstName") +:+ " "
                   +:+ toString (get participant "lastName");
         t_eventName := name event;
         t_eventDate := date event;
         t_eventVenue := venue event;
         t_ticketNumber := get participant "ticketNumber" |} in
    addEmailJob env
      {| to := get participant "email";
         subject := "✅ Registration Confirmed - " +:+ toString (name event);
         html := html |};;
    ret (res 201 (BParticipant participant (Some "Registration successful")))
    end
    end)
    "Failed to register participant".

Definition getEventParticipants (env : Env) (req : Request) : Db -> Response * Db :=
  try_catch (
    let eventId := get (params req) "eventId" in
    let status := get (query req) "status" in
    let checkedIn := get (query req) "checkedIn" in
    let search := get (query req) "search" in
    let page := or_default (get (query req) "page") (VNum 1) in
    let limit := or_default (get (query req) "limit") (VNum 50) in
    let offset := num_mul (num_sub (toNumber page) (Some 1)) (toNumber limit) in
    let* event := EventModel.findByPk eventId in
    match event with
    | None => ret (res 404 (BError "Event not found"))
    | Some event =>
    (* Check authorization *)
    if access_denied event (user req) then ret (res 403 (BError "Access denied"))
    else
    let w :=
      {| where_eventId := eventId;
         where_status := if truthy status then Some status else None;
         where_checkedIn :=
           match checkedIn with
           | VUndef => None
           | _ => Some (bool_decide (checkedIn = VStr "true"))
           end;
         where_or_iLike :=
           if truthy search then Some ("%" +:+ toString search +:+ "%") else None |} in
    let* found := ParticipantModel.findAndCountAll env w (parseInt limit) offset in
    let '(count, rows) := found in
    ret (res 200 (BList rows count (parseInt page) (ceil_div count (toNumber limit))))
    end)
    "Failed to fetch participants".

Definition getParticipantById (env : Env) (req : Request) : Db -> Response * Db :=
  try_catch (
    let id := get (params req) "id" in
    let* participant := ParticipantModel.findByPk id in
    match participant with
    | None => ret (res 404 (BError "Participant not found"))
    | Some participant =>
    (* the included projection of the owning event: id, name, date, venue *)
    let* included := EventModel.findByPk (get participant "eventId") in
    let projection :=
      (fun e => (event_id e, name e, date e, venue e)) <$> included in
    (* Check authorization *)
    let* event := EventModel.findByPk (get participant "eventId") in
    let* event := deref event in
    if access_denied event (user req) then ret (res 403 (BError "Access denied"))
    else ret (res 200 (BParticipantWithEvent participant projection))
    end)
    "Failed to fetch participant".

Definition updateParticipant (env : Env) (req : Request) : Db -> Response * Db :=
  try_catch (
    let id := get (params req) "id" in
    let* participant := ParticipantModel.findByPk id in
    match participant with
    | None => ret (res 404 (BError "Participant not found"))
    | Some participant =>
    (* Check authorization *)
    let* event := EventModel.findByPk (get participant "eventId") in
    let* event := deref event in
    if access_denied event (user req) then ret (res 403 (BError "Access denied"))
    else
    let* participant := ParticipantModel.update participant (body req) in
    ret (res 200 (BParticipant participant None))
    end)
    "Failed to update participant".

Definition deleteParticipant (env : Env) (req : Request) : Db -> Response * Db :=
  try_catch (
    let id := get (params req) "id" in
    let* participant := ParticipantModel.findByPk id in
    match participant with
    | None => ret (res 404 (BError "Participant not found"))
    | Some participant =>
    (* Check authorization *)
    let* event := EventModel.findByPk (get participant "eventId") in
    let* event := deref event in
    if access_denied event (user req) then ret (res 403 (BError "Access denied"))
    else
    ParticipantModel.destroy participant;;
    EventModel.decrement event EventModel.TotalRegistrations;;
    ret (res 200 (BMessage "Participant deleted successfully"))
    end)
    "Failed to delete participant".

(** The columns written by a check-in at time [checkInTime]. *)
Definition checkInValues (checkInTime checkInMethod : value) : obj :=
  {[ "checkedIn" := VBool true;
     "checkInTime" := checkInTime;
     "checkInMethod" := checkInMethod;
     "status" := VStr "attended" ]}.

Definition checkInParticipant (env : Env) (req : Request) : Db -> Response * Db :=
  try_catch (
    let id := get (params req) "id" in
    let checkInMethod := or_default (get (body req) "checkInMethod") (VStr "manual") in
    let* participant := ParticipantModel.findByPk id in
    match participant with
    | None => ret (res 404 (BError "Participant not found"))
    | Some participant =>
    (* Check authorization *)
    let* event := EventModel.findByPk (get participant "eventId") in
    let* event := deref event in
    if access_denied event (user req) then ret (res 403 (BError "Access denied"))
    else
    if truthy (get participant "checkedIn") then
      ret (res 400 (BError "Participant already checked in"))
    else
    let* participant :=
      ParticipantModel.update participant (checkInValues (new_Date env 0) checkInMethod) in
    EventModel.increment event EventModel.TotalAttendees 1;;
    ret (res 200 (BParticipant participant (Some "Check-in successful")))
    end)
    "Failed to check in participant".

(** The loop of the bulk check-in over the fetched instances.  Each update
    reads the clock anew; the readings made so far are as many as the
    participants updated so far. *)
Fixpoint checkIn_each (env : Env) (checkInMethod : value)
    (participants : list obj) (updated : list obj) : M (list obj) :=
  match participants with
  | [] => ret updated
  | participant :: rest =>
      if negb (truthy (get participant "checkedIn")) then
        let* participant :=
          ParticipantModel.update participant
            (checkInValues (new_Date env (length updated)) checkInMethod) in
        checkIn_each env checkInMethod rest (updated ++ [participant])%list
      else checkIn_each env checkInMethod rest updated
  end.

Definition elements_of (v : value) : list value :=
  match v with VArr l => l | _ => [] end.

Definition bulkCheckIn (env : Env) (req : Request) : Db -> Response * Db :=
  try_catch (
    let participantIds := get (body req) "participantIds" in
    let checkInMethod := or_default (get (body req) "checkInMethod") (VStr "manual") in
    if negb (truthy participantIds) || negb (isArray participantIds) then
      ret (res 400 (BError "participantIds must be an array"))
    else
    let* participants := ParticipantModel.findAll (elements_of participantIds) in
    match participants with
    | [] => ret (res 404 (BError "No participants found"))
    | first :: _ =>
    (* Check authorization for the first participant's event *)
    let* event := EventModel.findByPk (get first "eventId") in
    let* event := deref event in
    if access_denied event (user req) then ret (res 403 (BError "Access denied"))
    else
    let* updated := checkIn_each env checkInMethod participants [] in
    EventModel.increment event EventModel.TotalAttendees (Z.of_nat (length updated));;
    ret (res 200
      (BBulk (pretty (length updated) +:+ " participants checked in") updated))
    end)
    "Failed to bulk check in".

(** ** Vocabulary of the properties *)

(** The failures of the error taxonomy, as the responses the handlers send. *)
Definition EventNotFound : Response := res 404 (BError "Event not found").
Definition ParticipantNotFound : Response := res 404 (BError "Participant not found").
Definition InvalidState : Response := res 400 (BError "Event is not open for registration").
Definition CapacityExceeded : Response := res 400 (BError "Event is at full capacity").
Definition AlreadyRegistered : Response := res 400 (BError "Already registered for this event").
Definition AlreadyCheckedIn : Response := res 400 (BError "Participant already checked in").
Definition Forbidden : Response := res 403 (BError "Access denied").
Definition Internal (message : string) : Response := res 500 (BError message).

(** Some row of the table is registered to [eventId] under [email]. *)
Definition already_registered (eventId email : value) (rows : list obj) : Prop :=
  exists row, In row rows /\ get row "eventId" = eventId /\ get row "email" = email.

(** The caller is neither the organizer of the event nor an admin. *)
Definition unauthorized (ev : Event) (u : User) : Prop :=
  organizerId ev <> user_id u /\ role u <> "admin".

(** The capacity guard of the registration, as a proposition: the capacity
    is a non-zero number and the registrations have reached it. *)
Definition capacity_reached (ev : Event) : Prop :=
  exists c, capacity ev = Some c /\ c <> 0 /\ c <= totalRegistrations ev.

(** The caller is the organizer of the event or an admin. *)
Definition authorized (ev : Event) (u : User) : Prop :=
  organizerId ev = user_id u \/ role u = "admin".

(** The values the registration hands to [Participant.create]: the body
    with eventId, ticketNumber and status written over it. *)
Definition registration_values (env : Env) (req : Request) (ev : Event) : obj :=
  <["status" := VStr (if requiresApproval ev then "registered" else "confirmed")]>
    (<["ticketNumber" :=
        VStr ("TKT-" +:+ toUpperCase (toString_hex (randomBytes env 4)))]>
      (<["eventId" := get (params req) "eventId"]> (body req))).

(** The state after the row is stored and the registration is counted. *)
Definition registration_stored (env : Env) (req : Request) (ev : Event) (db : Db) : Db :=
  set_events (List.map (fun e =>
      if String.eqb (event_id e) (event_id ev)
      then EventModel.add EventModel.TotalRegistrations 1 e else e))
    (set_participants
       (fun rows =>
          (rows ++ [registration_values env req ev ∪ ParticipantModel.defaults env])%list)
       db).

(** The rows a bulk check-in fetches for the ids [ids]. *)
Definition matching (ids : list value) (db : Db) : list obj :=
  List.filter (ParticipantModel.id_in ids) (participants db).

(** [participant.checkedIn], as a condition. *)
Definition checked_in (row : obj) : bool := truthy (get row "checkedIn").

(** K: how many of the rows fetched for [ids] are already checked in. *)
Definition already_checked_in (ids : list value) (db : Db) : nat :=
  length (List.filter checked_in (matching ids db)).

(** The check-in method of a request: the body's, or "manual". *)
Definition method_of (req : Request) : value :=
  or_default (get (body req) "checkInMethod") (VStr "manual").

(** The check-in of one row at time [checkInTime], as single and bulk
    check-in both write it. *)
Definition check_in (checkInTime checkInMethod : value) (row : obj) : obj :=
  checkInValues checkInTime checkInMethod ∪ row.

(** The row [row] is the row of some instance of [ps] not yet checked in. *)
Definition touched (ps : list obj) (row : obj) : bool :=
  existsb (fun p => negb (checked_in p) && ParticipantModel.has_id (get p "id") row) ps.

(** The bulk loop over the fetched instances [ps], started after [k] clock
    readings, as functions of the table.  [checkIn_stamp] is the number of
    the clock reading that is stored last in [row], if the loop writes to it;
    [checkIn_row] is the row as the loop leaves it; [checkIn_updated] is the
    list the loop collects. *)
Fixpoint checkIn_stamp (ps : list obj) (k : nat) (row : obj) : option nat :=
  match ps with
  | [] => None
  | p :: rest =>
      if checked_in p then checkIn_stamp rest k row
      else match checkIn_stamp rest (S k) row with
           | Some i => Some i
           | None => if ParticipantModel.has_id (get p "id") row then Some k else None
           end
  end.

Definition checkIn_row (env : Env) (checkInMethod : value) (ps : list obj) (k : nat)
    (row : obj) : obj :=
  match checkIn_stamp ps k row with
  | Some i => check_in (clock env i) checkInMethod row
  | None => row
  end.

Fixpoint checkIn_updated (env : Env) (checkInMethod : value) (ps : list obj) (k : nat)
    : list obj :=
  match ps with
  | [] => []
  | p :: rest =>
      if checked_in p then checkIn_updated env checkInMethod rest k
      else check_in (clock env k) checkInMethod p
           :: checkIn_updated env checkInMethod rest (S k)
  end.


(** ** Vocabulary of the further properties *)

(** The row a registration creates. *)
Definition created_participant (env : Env) (req : Request) (ev : Event) : obj :=
  registration_values env req ev ∪ ParticipantModel.defaults env.

(** The job a registration hands to the queue for [participant]. *)
Definition confirmation_job (env : Env) (ev : Event) (participant : obj) : EmailJob :=
  {| to := get participant "email";
     subject := "✅ Registration Confirmed - " +:+ toString (name ev);
     html := registrationConfirmationTemplate env
       {| t_name := toString (get participant "firstName") +:+ " "
                    +:+ toString (get participant "lastName");
          t_eventName := name ev;
          t_eventDate := date ev;
          t_eventVenue := venue ev;
          t_ticketNumber := get participant "ticketNumber" |} |}.

(** The pair a registration must be unique in. *)
Definition registration_key (row : obj) : value * value :=
  (get row "eventId", get row "email").

(** The registrations of the event stay within a non-zero capacity. *)
Definition within_capacity (e : Event) : Prop :=
  forall c, capacity e = Some c -> c <> 0 -> totalRegistrations e <= c.

(** Reading a ticket back: the value of an upper-case hexadecimal digit,
    and the byte two digits stand for. *)
Definition hex_value (c : ascii) : N :=
  let n := N_of_ascii c in if (n <? 58)%N then (n - 48)%N else (n - 55)%N.

Definition read_byte (c1 c2 : ascii) : option byte :=
  Byte.of_N (16 * hex_value c1 + hex_value c2).

Fixpoint read_hex (s : string) : option (list byte) :=
  match s with
  | EmptyString => Some []
  | String c1 (String c2 rest) =>
      match read_byte c1 c2, read_hex rest with
      | Some b, Some bs => Some (b :: bs)
      | _, _ => None
      end
  | String _ EmptyString => None
  end.

(** The filter the listing builds from the path and the query string. *)
Definition listing_where (req : Request) : Where :=
  {| where_eventId := get (params req) "eventId";
     where_status :=
       if truthy (get (query req) "status") then Some (get (query req) "status") else None;
     where_checkedIn :=
       match get (query req) "checkedIn" with
       | VUndef => None
       | _ => Some (bool_decide (get (query req) "checkedIn" = VStr "true"))
       end;
     where_or_iLike :=
       if truthy (get (query req) "search")
       then Some ("%" +:+ toString (get (query req) "search") +:+ "%") else None |}.
(** ** Sample data *)

Module Sample.

Definition env : Env :=
  {| entropy := fun i =>
       match i with O => xde | 1%nat => xad | 2%nat => x0b | _ => xef end;
     clock := fun k => VNum (1700000000 + Z.of_nat k);
     generatedId := VStr "p-new";
     registrationConfirmationTemplate := fun a => "<p>" +:+ t_name a +:+ "</p>";
     queueThrows := false;
     findAndCountAll := fun _ _ _ rows => Returned (Z.of_nat (length rows), rows) |}.

Definition env_queue_down : Env :=
  {| entropy := entropy env; clock := clock env; generatedId := generatedId env;
     registrationConfirmationTemplate := registrationConfirmationTemplate env;
     queueThrows := true;
     findAndCountAll := findAndCountAll env |}.

Definition event (id st : string) (cap : option Z) (regs : Z) (owner : string)
    (approval : bool) : Event :=
  {| event_id := id; name := VStr "Conference"; date := VStr "2025-06-01";
     venue := VStr "Main hall"; status := st; capacity := cap;
     totalRegistrations := regs; totalAttendees := 0;
     organizerId := owner; requiresApproval := approval |}.

Definition participant (id eventId email : string) (checkedIn : bool) : obj :=
  {[ "id" := VStr id; "eventId" := VStr eventId; "email" := VStr email;
     "firstName" := VStr "Ada"; "lastName" := VStr "Byron";
     "ticketNumber" := VStr "TKT-00000000"; "status" := VStr "confirmed";
     "checkedIn" := VBool checkedIn ]}.

Definition open_event : Event := event "open" "published" (Some 5) 2 "alice" false.
Definition full_event : Event := event "full" "published" (Some 1) 1 "alice" true.
Definition zero_event : Event := event "zero" "published" (Some 0) 0 "alice" false.
Definition zero1_event : Event := event "zero1" "published" (Some 0) 1 "alice" false.
Definition draft_event : Event := event "draft" "draft" (Some 1) 1 "alice" false.
Definition other_event : Event := event "other" "published" None 1 "bob" false.

Definition p1 : obj := participant "p1" "open" "ada@x.com" false.
Definition p2 : obj := participant "p2" "open" "bea@x.com" true.
Definition p3 : obj := participant "p3" "other" "cyd@x.com" false.
Definition p4 : obj := participant "p4" "zero1" "dee@x.com" false.
(** A participant whose event row is gone. *)
Definition p5 : obj := participant "p5" "gone" "eve@x.com" false.

Definition db : Db :=
  {| events := [open_event; full_event; zero_event; zero1_event; draft_event; other_event];
     participants := [p1; p2; p3; p4; p5];
     emailQueue := [] |}.

Definition alice : User := {| user_id := "alice"; role := "organizer" |}.
Definition mallory : User := {| user_id := "mallory"; role := "organizer" |}.

(** A request on the path parameter [k := v] with body [b], sent by [u]. *)
Definition request (k v : string) (b : obj) (u : User) : Request :=
  {| params := {[ k := VStr v ]}; query := ∅; body := b; user := u |}.

Definition signup (email : string) : obj :=
  {[ "email" := VStr email; "firstName" := VStr "Dan"; "lastName" := VStr "Kay" ]}.

(** A body that tries to set the fields the server sets. *)
Definition forged : obj :=
  <["status" := VStr "attended"]>
    (<["ticketNumber" := VStr "TKT-FORGED00"]>
      (<["eventId" := VStr "other"]> (signup "dan@x.com"))).

(** A request without path parameters. *)
Definition post (b : obj) (u : User) : Request :=
  {| params := ∅; query := ∅; body := b; user := u |}.

Definition bulk (ids : list string) : obj :=
  {[ "participantIds" := VArr (VStr <$> ids) ]}.

Definition ids : list value := [VStr "p1"; VStr "p2"].

(** The requests of the examples. *)
Definition dan_to_open : Request := request "eventId" "open" (signup "dan@x.com") mallory.
Definition forged_to_open : Request := request "eventId" "open" forged mallory.
Definition alice_p1 : Request := request "id" "p1" ∅ alice.
Definition alice_p1_again : Request := request "id" "p1" (signup "x") alice.
Definition alice_p5 : Request := request "id" "p5" ∅ alice.
Definition mallory_p1 : Request := request "id" "p1" ∅ mallory.
Definition alice_bulk : Request := post (bulk ["p1"; "p2"]) alice.
Definition alice_bulk_foreign : Request := post (bulk ["p1"; "p3"]) alice.

End Sample.


(** ** Sample requests of the further properties *)

Module Scenario.


Definition unknown_p9 : Request := Sample.request "id" "p9" ∅ Sample.mallory.

Definition unknown_event : Request := Sample.request "eventId" "nowhere" ∅ Sample.mallory.

Definition rename_p1 : Request :=
  Sample.request "id" "p1" {[ "firstName" := VStr "Augusta" ]} Sample.alice.

Definition rekey_p1 : Request :=
  Sample.request "id" "p1" {[ "id" := VStr "p9"; "firstName" := VStr "Augusta" ]}
    Sample.alice.

Definition reset_p1 : Request :=
  Sample.request "id" "p1" {[ "checkedIn" := VBool false ]} Sample.alice.

Definition delete_new : Request := Sample.request "id" "p-new" ∅ Sample.alice.

Definition list_open : Request := Sample.request "eventId" "open" ∅ Sample.alice.

Definition bulk_none : Request := Sample.post ∅ Sample.mallory.

Definition bulk_empty : Request :=
  Sample.post {[ "participantIds" := VArr [] ]} Sample.mallory.

Definition bulk_unknown : Request := Sample.post (Sample.bulk ["p9"]) Sample.mallory.

Definition bulk_p1 : Request := Sample.post (Sample.bulk ["p1"]) Sample.alice.

Definition bulk_p2 : Request := Sample.post (Sample.bulk ["p2"]) Sample.alice.

End Scenario.
(** * Properties *)

(** ** Running the handlers *)

(** A check-in names no id, so the update writes all its columns. *)
Lemma delete_id_checkInValues (t m : value) :
  delete "id" (checkInValues t m) = checkInValues t m.
Proof.
  apply delete_id. unfold checkInValues.
  rewrite !lookup_insert_ne by discriminate. apply lookup_singleton_ne. discriminate.
Qed.

Ltac exec :=
  cbv beta iota zeta delta
    [try_catch bind ret throw gets modify deref new_Date
     EventModel.findByPk EventModel.increment EventModel.decrement
     ParticipantModel.findByPk ParticipantModel.findOne ParticipantModel.findAll
     ParticipantModel.create ParticipantModel.update ParticipantModel.destroy
     ParticipantModel.findAndCountAll addEmailJob];
  rewrite ?delete_id_checkInValues.

Lemma eqb_published (s : string) : s = "published" -> negb (String.eqb s "published") = false.
Proof. intros ->. reflexivity. Qed.

Lemma neqb_published (s : string) : s <> "published" -> negb (String.eqb s "published") = true.
Proof. intros H. apply Bool.negb_true_iff, String.eqb_neq, H. Qed.

Lemma capacity_guard_true (ev : Event) :
  capacity_reached ev ->
  truthy (nullable (capacity ev)) && (default 0 (capacity ev) <=? totalRegistrations ev) = true.
Proof.
  intros (c & Hc & Hnz & Hle). rewrite Hc. simpl.
  apply andb_true_intro. split.
  - apply Bool.negb_true_iff, Z.eqb_neq, Hnz.
  - apply Z.leb_le, Hle.
Qed.

Lemma capacity_guard_false (ev : Event) :
  ~ capacity_reached ev ->
  truthy (nullable (capacity ev)) && (default 0 (capacity ev) <=? totalRegistrations ev) = false.
Proof.
  intros Hn. apply Bool.not_true_is_false. intros Ht.
  apply andb_prop in Ht as [Ht Hle]. apply Hn.
  destruct (capacity ev) as [c|] eqn:Hc; simpl in *; [|discriminate].
  exists c. split; [exact Hc|]. split.
  - apply Bool.negb_true_iff, Z.eqb_neq in Ht. exact Ht.
  - apply Z.leb_le, Hle.
Qed.

(** C1 (amended): on a published event whose capacity is a non-zero number
    equal to totalRegistrations, a registration attempt is answered
    400 'Event is at full capacity' and the state is left as it was: the
    counter is unchanged and no Participant row is created. *)
Theorem register_at_full_capacity (env : Env) (req : Request) (db : Db) (ev : Event) (c : Z) :
  EventModel.byPk (get (params req) "eventId") (events db) = Some ev ->
  status ev = "published" ->
  capacity ev = Some c ->
  c <> 0 ->
  totalRegistrations ev = c ->
  registerParticipant env req db = (CapacityExceeded, db).
Proof.
  intros Hev Hst Hcap Hnz Htot.
  unfold registerParticipant. exec. rewrite Hev.
  rewrite (eqb_published _ Hst).
  rewrite capacity_guard_true; [reflexivity|].
  exists c. repeat split; [exact Hcap | exact Hnz | lia].
Qed.

Lemma register_at_full_capacity_witness :
  registerParticipant Sample.env
    (Sample.request "eventId" "full" (Sample.signup "dan@x.com") Sample.mallory) Sample.db
  = (CapacityExceeded, Sample.db).
Proof.
  apply (register_at_full_capacity _ _ _
           Sample.full_event 1);
    [vm_compute; reflexivity | reflexivity | reflexivity | lia | reflexivity].
Defined.

(** C1 as stated fails at capacity = 0: on the published event "zero"
    (capacity 0, totalRegistrations 0) a registration is answered 201, a row
    is created and the counter becomes 1.  It also fails on an event that is
    not published: the draft event "draft" (capacity 1, totalRegistrations 1)
    answers 'Event is not open for registration'. *)
Lemma register_capacity_zero_counterexample :
  (EventModel.byPk (VStr "zero") (events Sample.db)
     = Some Sample.zero_event
   /\ code (fst (registerParticipant Sample.env
        (Sample.request "eventId" "zero" (Sample.signup "dan@x.com") Sample.mallory)
        Sample.db)) = 201
   /\ totalRegistrations <$> EventModel.byPk (VStr "zero")
        (events (snd (registerParticipant Sample.env
          (Sample.request "eventId" "zero" (Sample.signup "dan@x.com") Sample.mallory)
          Sample.db))) = Some 1
   /\ length (participants (snd (registerParticipant Sample.env
        (Sample.request "eventId" "zero" (Sample.signup "dan@x.com") Sample.mallory)
        Sample.db))) = S (length (participants Sample.db)))
  /\ (EventModel.byPk (VStr "draft") (events Sample.db)
       = Some Sample.draft_event
      /\ registerParticipant Sample.env
          (Sample.request "eventId" "draft" (Sample.signup "dan@x.com") Sample.mallory)
          Sample.db = (InvalidState, Sample.db)
      /\ InvalidState <> CapacityExceeded).
Proof.
  repeat split; try (vm_compute; reflexivity).
  unfold InvalidState, CapacityExceeded. discriminate.
Qed.

(** ** The order of the registration checks *)

Lemma find_exists {A} (f : A -> bool) (l : list A) (x : A) :
  In x l -> f x = true -> exists y, List.find f l = Some y.
Proof.
  intros Hin Hf. destruct (List.find f l) as [y|] eqn:E; [eauto|].
  rewrite (List.find_none f l E x Hin) in Hf. discriminate.
Qed.

Lemma findOne_registered (eventId email : value) (rows : list obj) :
  already_registered eventId email rows ->
  exists row, List.find (ParticipantModel.registered_as eventId email) rows = Some row.
Proof.
  intros (row & Hin & He & Hm). apply (find_exists _ _ row Hin).
  unfold ParticipantModel.registered_as.
  rewrite !bool_decide_eq_true_2 by assumption. reflexivity.
Qed.

(** C2 (amended): registerParticipant checks, in this order and each with
    its own failure, that (1) the event exists, else 404 'Event not found';
    (2) its status is 'published', else 400 'Event is not open for
    registration'; (3) if its capacity is a non-zero number,
    totalRegistrations is below it, else 400 'Event is at full capacity';
    (4) no Participant row has the same (eventId, email), else 400 'Already
    registered for this event'.  A failing check answers whatever the later
    checks would say, and leaves the state as it was. *)
Theorem register_precondition_order (env : Env) (req : Request) (db : Db) :
  (EventModel.byPk (get (params req) "eventId") (events db) = None ->
   registerParticipant env req db = (EventNotFound, db))
  /\ (forall ev,
       EventModel.byPk (get (params req) "eventId") (events db) = Some ev ->
       status ev <> "published" ->
       registerParticipant env req db = (InvalidState, db))
  /\ (forall ev,
       EventModel.byPk (get (params req) "eventId") (events db) = Some ev ->
       status ev = "published" ->
       capacity_reached ev ->
       registerParticipant env req db = (CapacityExceeded, db))
  /\ (forall ev,
       EventModel.byPk (get (params req) "eventId") (events db) = Some ev ->
       status ev = "published" ->
       ~ capacity_reached ev ->
       already_registered (get (params req) "eventId") (get (body req) "email")
         (participants db) ->
       registerParticipant env req db = (AlreadyRegistered, db))
  /\ (EventNotFound <> InvalidState /\ EventNotFound <> CapacityExceeded
      /\ EventNotFound <> AlreadyRegistered /\ InvalidState <> CapacityExceeded
      /\ InvalidState <> AlreadyRegistered /\ CapacityExceeded <> AlreadyRegistered).
Proof.
  split; [|split; [|split; [|split]]].
  - intros Hev. unfold registerParticipant. exec. rewrite Hev. reflexivity.
  - intros ev Hev Hst. unfold registerParticipant. exec. rewrite Hev.
    rewrite (neqb_published _ Hst). reflexivity.
  - intros ev Hev Hst Hcap. unfold registerParticipant. exec. rewrite Hev.
    rewrite (eqb_published _ Hst), (capacity_guard_true _ Hcap). reflexivity.
  - intros ev Hev Hst Hcap Hdup. unfold registerParticipant. exec. rewrite Hev.
    rewrite (eqb_published _ Hst), (capacity_guard_false _ Hcap).
    destruct (findOne_registered _ _ _ Hdup) as [row ->]. reflexivity.
  - unfold EventNotFound, InvalidState, CapacityExceeded, AlreadyRegistered.
    repeat split; discriminate.
Qed.

Lemma register_precondition_order_witness :
  registerParticipant Sample.env
    (Sample.request "eventId" "nowhere" (Sample.signup "dee@x.com") Sample.mallory)
    Sample.db = (EventNotFound, Sample.db)
  /\ registerParticipant Sample.env
    (Sample.request "eventId" "draft" (Sample.signup "dee@x.com") Sample.mallory)
    Sample.db = (InvalidState, Sample.db)
  /\ registerParticipant Sample.env
    (Sample.request "eventId" "full" (Sample.signup "dee@x.com") Sample.mallory)
    Sample.db = (CapacityExceeded, Sample.db)
  /\ registerParticipant Sample.env
    (Sample.request "eventId" "open" (Sample.signup "ada@x.com") Sample.mallory)
    Sample.db = (AlreadyRegistered, Sample.db).
Proof.
  split; [|split; [|split]].
  - apply (proj1 (register_precondition_order _ _ _)). vm_compute; reflexivity.
  - apply (proj1 (proj2 (register_precondition_order _ _ _))
             Sample.draft_event);
      [vm_compute; reflexivity | discriminate].
  - apply (proj1 (proj2 (proj2 (register_precondition_order _ _ _)))
             Sample.full_event);
      [vm_compute; reflexivity | reflexivity |].
    exists 1. repeat split; [discriminate | simpl; lia].
  - apply (proj1 (proj2 (proj2 (proj2 (register_precondition_order _ _ _))))
             Sample.open_event);
      [vm_compute; reflexivity | reflexivity | |].
    + intros (c & Hc & _ & Hle). simpl in Hc, Hle. injection Hc as <-. lia.
    + exists Sample.p1.
      split; [left; reflexivity | split; vm_compute; reflexivity].
Defined.

(** C2 as stated fails when the capacity is 0: on the published event
    "zero1" the capacity is set, totalRegistrations (1) is not below it, and
    a registration under an email already registered is answered 'Already
    registered for this event', not 'Event is at full capacity'. *)
Lemma register_order_capacity_zero_counterexample :
  EventModel.byPk (VStr "zero1") (events Sample.db)
    = Some Sample.zero1_event
  /\ ~ (1 < 0)
  /\ registerParticipant Sample.env
       (Sample.request "eventId" "zero1" (Sample.signup "dee@x.com") Sample.mallory)
       Sample.db = (AlreadyRegistered, Sample.db)
  /\ AlreadyRegistered <> CapacityExceeded.
Proof.
  repeat split; try (vm_compute; reflexivity); [lia|].
  unfold AlreadyRegistered, CapacityExceeded. discriminate.
Qed.

(** ** Authorization *)

Lemma access_denied_true (ev : Event) (u : User) :
  unauthorized ev u -> access_denied ev u = true.
Proof.
  intros [Ho Hr]. unfold access_denied.
  apply andb_true_intro. split; apply Bool.negb_true_iff, String.eqb_neq; assumption.
Qed.

Lemma access_denied_false (ev : Event) (u : User) :
  organizerId ev = user_id u \/ role u = "admin" -> access_denied ev u = false.
Proof.
  intros H. unfold access_denied. apply Bool.andb_false_iff.
  destruct H as [H|H]; [left|right]; apply Bool.negb_false_iff, String.eqb_eq, H.
Qed.

(** C3 (amended): a list, get-by-id, update, delete or single check-in
    request whose caller is neither the organizer of the owning event nor an
    admin, and a bulk check-in request whose caller is neither the organizer
    of the event of the first fetched participant nor an admin, is answered
    403 'Access denied' and leaves every Participant row and every Event
    counter as it was. *)
Theorem unauthorized_request_forbidden (env : Env) (req : Request) (db : Db) (ev : Event) :
  unauthorized ev (user req) ->
  (EventModel.byPk (get (params req) "eventId") (events db) = Some ev ->
   getEventParticipants env req db = (Forbidden, db))
  /\ (forall p,
       ParticipantModel.byPk (get (params req) "id") (participants db) = Some p ->
       EventModel.byPk (get p "eventId") (events db) = Some ev ->
       getParticipantById env req db = (Forbidden, db)
       /\ updateParticipant env req db = (Forbidden, db)
       /\ deleteParticipant env req db = (Forbidden, db)
       /\ checkInParticipant env req db = (Forbidden, db))
  /\ (forall ids first rest,
       get (body req) "participantIds" = VArr ids ->
       List.filter (ParticipantModel.id_in ids) (participants db) = first :: rest ->
       EventModel.byPk (get first "eventId") (events db) = Some ev ->
       bulkCheckIn env req db = (Forbidden, db)).
Proof.
  intros Hu. pose proof (access_denied_true _ _ Hu) as Hd.
  split; [|split].
  - intros Hev. unfold getEventParticipants. exec. rewrite Hev, Hd. reflexivity.
  - intros p Hp Hev. repeat split.
    + unfold getParticipantById. exec. rewrite Hp, Hev, Hd. reflexivity.
    + unfold updateParticipant. exec. rewrite Hp, Hev, Hd. reflexivity.
    + unfold deleteParticipant. exec. rewrite Hp, Hev, Hd. reflexivity.
    + unfold checkInParticipant. exec. rewrite Hp, Hev, Hd. reflexivity.
  - intros ids first rest Hids Hall Hev. unfold bulkCheckIn. exec.
    rewrite Hids. simpl. rewrite Hall, Hev, Hd. reflexivity.
Qed.

Lemma unauthorized_request_forbidden_witness :
  getEventParticipants Sample.env
    (Sample.request "eventId" "open" ∅ Sample.mallory) Sample.db = (Forbidden, Sample.db)
  /\ (getParticipantById Sample.env
        Sample.mallory_p1 Sample.db = (Forbidden, Sample.db)
      /\ updateParticipant Sample.env
        Sample.mallory_p1 Sample.db = (Forbidden, Sample.db)
      /\ deleteParticipant Sample.env
        Sample.mallory_p1 Sample.db = (Forbidden, Sample.db)
      /\ checkInParticipant Sample.env
        Sample.mallory_p1 Sample.db = (Forbidden, Sample.db))
  /\ bulkCheckIn Sample.env
        (Sample.post (Sample.bulk ["p1"; "p2"]) Sample.mallory) Sample.db
      = (Forbidden, Sample.db).
Proof.
  assert (Hu : unauthorized Sample.open_event
                 Sample.mallory) by (split; discriminate).
  split; [|split].
  - apply (proj1 (unauthorized_request_forbidden Sample.env
             (Sample.request "eventId" "open" ∅ Sample.mallory) Sample.db _ Hu)).
    vm_compute; reflexivity.
  - apply (proj1 (proj2 (unauthorized_request_forbidden Sample.env
             Sample.mallory_p1 Sample.db _ Hu))
             Sample.p1);
      vm_compute; reflexivity.
  - apply (proj2 (proj2 (unauthorized_request_forbidden Sample.env
             (Sample.post (Sample.bulk ["p1"; "p2"]) Sample.mallory)
             Sample.db _ Hu))
             Sample.ids
             Sample.p1
             [Sample.p2]);
      vm_compute; reflexivity.
Defined.

(** C3 as stated fails for the bulk check-in: alice organizes "open" but
    neither organizes "other" nor is an admin; her bulk check-in of p1 (of
    "open") and p3 (of "other") is answered 200 and checks p3 in. *)
Lemma bulk_checkin_foreign_participant_counterexample :
  ParticipantModel.byPk (VStr "p3") (participants Sample.db)
    = Some Sample.p3
  /\ EventModel.byPk (VStr "other") (events Sample.db)
    = Some Sample.other_event
  /\ unauthorized Sample.other_event Sample.alice
  /\ code (fst (bulkCheckIn Sample.env
        Sample.alice_bulk_foreign Sample.db)) = 200
  /\ (fun row => get row "checkedIn") <$>
       ParticipantModel.byPk (VStr "p3") (participants (snd (bulkCheckIn Sample.env
         Sample.alice_bulk_foreign Sample.db)))
     = Some (VBool true)
  /\ bulkCheckIn Sample.env
        Sample.alice_bulk_foreign Sample.db
     <> (Forbidden, Sample.db).
Proof.
  split; [vm_compute; reflexivity|].
  split; [vm_compute; reflexivity|].
  split; [split; discriminate|].
  split; [vm_compute; reflexivity|].
  split; [vm_compute; reflexivity|].
  intros H. apply (f_equal (fun x => code (fst x))) in H. vm_compute in H. discriminate.
Qed.

(** ** Ticket numbers and the status at registration *)

Lemma toUpperCase_app (a b : string) :
  toUpperCase (a +:+ b) = toUpperCase a +:+ toUpperCase b.
Proof. induction a as [|c a IH]; simpl; [reflexivity | rewrite IH; reflexivity]. Qed.

Lemma all_upper_hex_app (a b : string) :
  all_upper_hex (a +:+ b) = all_upper_hex a && all_upper_hex b.
Proof.
  induction a as [|c a IH]; simpl; [reflexivity|].
  rewrite IH. apply Bool.andb_assoc.
Qed.

Lemma string_length_app (a b : string) :
  String.length (a +:+ b) = (String.length a + String.length b)%nat.
Proof. induction a as [|c a IH]; simpl; [reflexivity | rewrite IH; reflexivity]. Qed.

Lemma byte_to_hex_upper (b : byte) :
  all_upper_hex (toUpperCase (byte_to_hex b)) = true
  /\ String.length (toUpperCase (byte_to_hex b)) = 2%nat.
Proof. destruct b; vm_compute; split; reflexivity. Qed.

Lemma toString_hex_upper (bs : list byte) :
  all_upper_hex (toUpperCase (toString_hex bs)) = true
  /\ String.length (toUpperCase (toString_hex bs)) = (2 * length bs)%nat.
Proof.
  induction bs as [|b bs [IH1 IH2]]; [split; reflexivity|].
  destruct (byte_to_hex_upper b) as [H1 H2].
  cbn [toString_hex]. rewrite toUpperCase_app, all_upper_hex_app, string_length_app.
  rewrite H1, H2, IH1, IH2. split; [reflexivity | simpl; lia].
Qed.

Lemma randomBytes_length (env : Env) (n : nat) : length (randomBytes env n) = n.
Proof. unfold randomBytes. rewrite length_fmap, length_seq. reflexivity. Qed.

Lemma ticket_matches (env : Env) :
  matches_ticket_pattern ("TKT-" +:+ toUpperCase (toString_hex (randomBytes env 4))) = true.
Proof.
  destruct (toString_hex_upper (randomBytes env 4)) as [H1 H2].
  rewrite randomBytes_length in H2.
  change (Nat.eqb (String.length (toUpperCase (toString_hex (randomBytes env 4)))) 8
          && all_upper_hex (toUpperCase (toString_hex (randomBytes env 4))) = true).
  rewrite H1, H2. reflexivity.
Qed.

(** What a registration does once its four checks have passed. *)
Lemma register_passes (env : Env) (req : Request) (db : Db) (ev : Event) :
  EventModel.byPk (get (params req) "eventId") (events db) = Some ev ->
  status ev = "published" ->
  ~ capacity_reached ev ->
  List.find (ParticipantModel.registered_as (get (params req) "eventId")
               (get (body req) "email")) (participants db) = None ->
  exists job,
    registerParticipant env req db =
      if queueThrows env
      then (Internal "Failed to register participant", registration_stored env req ev db)
      else (res 201 (BParticipant
                       (registration_values env req ev ∪ ParticipantModel.defaults env)
                       (Some "Registration successful")),
            set_emailQueue (fun q => (q ++ [job])%list) (registration_stored env req ev db)).
Proof.
  intros Hev Hst Hcap Hnew. eexists.
  unfold registerParticipant. exec. rewrite Hev.
  rewrite (eqb_published _ Hst), (capacity_guard_false _ Hcap), Hnew.
  destruct (queueThrows env); reflexivity.
Qed.

(** A registration answered 201 has passed the four checks with the queue up. *)
Lemma register_created_inv (env : Env) (req : Request) (db db' : Db) (r : Response) :
  registerParticipant env req db = (r, db') ->
  code r = 201 ->
  exists ev job,
    EventModel.byPk (get (params req) "eventId") (events db) = Some ev
    /\ status ev = "published"
    /\ ~ capacity_reached ev
    /\ List.find (ParticipantModel.registered_as (get (params req) "eventId")
                    (get (body req) "email")) (participants db) = None
    /\ r = res 201 (BParticipant
                      (registration_values env req ev ∪ ParticipantModel.defaults env)
                      (Some "Registration successful"))
    /\ db' = set_emailQueue (fun q => (q ++ [job])%list) (registration_stored env req ev db).
Proof.
  intros Hrun Hcode.
  destruct (EventModel.byPk (get (params req) "eventId") (events db)) as [ev|] eqn:Hev.
  2:{ revert Hrun. unfold registerParticipant. exec.
      rewrite Hev. intros [= <- <-]. discriminate. }
  destruct (String.string_dec (status ev) "published") as [Hst|Hst].
  2:{ revert Hrun. unfold registerParticipant. exec.
      rewrite Hev, (neqb_published _ Hst). intros [= <- <-]. discriminate. }
  destruct (truthy (nullable (capacity ev))
            && (default 0 (capacity ev) <=? totalRegistrations ev)) eqn:Hg.
  { revert Hrun. unfold registerParticipant. exec.
    rewrite Hev, (eqb_published _ Hst), Hg. intros [= <- <-]. discriminate. }
  assert (Hcap : ~ capacity_reached ev).
  { intros Hc. rewrite (capacity_guard_true _ Hc) in Hg. discriminate. }
  destruct (List.find (ParticipantModel.registered_as (get (params req) "eventId")
              (get (body req) "email")) (participants db)) as [row|] eqn:Hnew.
  { revert Hrun. unfold registerParticipant. exec.
    rewrite Hev, (eqb_published _ Hst), Hg, Hnew. intros [= <- <-]. discriminate. }
  destruct (register_passes env req db ev Hev Hst Hcap Hnew) as [job Hjob].
  rewrite Hjob in Hrun. destruct (queueThrows env).
  - injection Hrun as <- <-. discriminate.
  - injection Hrun as <- <-. exists ev, job. repeat split; assumption.
Qed.

Lemma registration_values_status (env : Env) (req : Request) (ev : Event) (d : obj) :
  get (registration_values env req ev ∪ d) "status"
  = VStr (if requiresApproval ev then "registered" else "confirmed").
Proof.
  unfold get, registration_values.
  erewrite lookup_union_Some_l; [reflexivity|]. apply lookup_insert_eq.
Qed.

Lemma registration_values_ticketNumber (env : Env) (req : Request) (ev : Event) (d : obj) :
  get (registration_values env req ev ∪ d) "ticketNumber"
  = VStr ("TKT-" +:+ toUpperCase (toString_hex (randomBytes env 4))).
Proof.
  unfold get, registration_values.
  erewrite lookup_union_Some_l; [reflexivity|].
  rewrite lookup_insert_ne by discriminate. apply lookup_insert_eq.
Qed.

Lemma registration_values_eventId (env : Env) (req : Request) (ev : Event) (d : obj) :
  get (registration_values env req ev ∪ d) "eventId" = get (params req) "eventId".
Proof.
  unfold get at 1. unfold registration_values.
  erewrite lookup_union_Some_l; [reflexivity|].
  rewrite !lookup_insert_ne by discriminate. apply lookup_insert_eq.
Qed.

(** C4: the participant created by a successful registration is stored
    with status 'registered' when the event requires approval and
    'confirmed' otherwise, and with a ticket number that matches
    [TKT-[0-9A-F]{8}]. *)
Theorem registration_status_and_ticket
    (env : Env) (req : Request) (db db' : Db) (p : obj) (msg : option string) :
  registerParticipant env req db = (res 201 (BParticipant p msg), db') ->
  exists ev t,
    EventModel.byPk (get (params req) "eventId") (events db) = Some ev
    /\ participants db' = (participants db ++ [p])%list
    /\ get p "status" = VStr (if requiresApproval ev then "registered" else "confirmed")
    /\ get p "ticketNumber" = VStr t
    /\ matches_ticket_pattern t = true.
Proof.
  intros Hrun.
  destruct (register_created_inv env req db db' _ Hrun eq_refl)
    as (ev & job & Hev & _ & _ & _ & Hr & ->).
  injection Hr as -> _.
  exists ev, ("TKT-" +:+ toUpperCase (toString_hex (randomBytes env 4))).
  split; [exact Hev|]. split; [reflexivity|].
  split; [apply registration_values_status|].
  split; [apply registration_values_ticketNumber | apply ticket_matches].
Qed.

Lemma registration_status_and_ticket_witness :
  exists ev t,
    EventModel.byPk (VStr "open") (events Sample.db) = Some ev
    /\ participants (snd (registerParticipant Sample.env
         Sample.dan_to_open
         Sample.db))
       = (participants Sample.db
          ++ [registration_values Sample.env
                Sample.dan_to_open
                Sample.open_event
              ∪ ParticipantModel.defaults Sample.env])%list
    /\ get (registration_values Sample.env
              Sample.dan_to_open
              Sample.open_event
            ∪ ParticipantModel.defaults Sample.env) "status"
       = VStr (if requiresApproval ev then "registered" else "confirmed")
    /\ get (registration_values Sample.env
              Sample.dan_to_open
              Sample.open_event
            ∪ ParticipantModel.defaults Sample.env) "ticketNumber" = VStr t
    /\ matches_ticket_pattern t = true.
Proof.
  apply (registration_status_and_ticket Sample.env
           Sample.dan_to_open
           Sample.db _ _ (Some "Registration successful")).
  vm_compute; reflexivity.
Defined.

(** ** Check-in *)

Lemma find_map_preserved {A} (f : A -> bool) (g : A -> A) (l : list A) :
  (forall x, f (g x) = f x) -> List.find f (List.map g l) = g <$> List.find f l.
Proof.
  intros Hfg. induction l as [|x l IH]; simpl; [reflexivity|].
  rewrite Hfg. destruct (f x); [reflexivity | exact IH].
Qed.

Lemma event_id_add (c : EventModel.counter) (n : Z) (e : Event) :
  event_id (EventModel.add c n e) = event_id e.
Proof. destruct c; reflexivity. Qed.

(** Looking an event up after one of its counters was moved. *)
Lemma byPk_after_increment (k : value) (ev target : Event) (c : EventModel.counter)
    (n : Z) (rows : list Event) :
  EventModel.byPk k rows = Some ev ->
  EventModel.byPk k (List.map (fun e =>
      if String.eqb (event_id e) (event_id target) then EventModel.add c n e else e) rows)
  = Some (if String.eqb (event_id ev) (event_id target) then EventModel.add c n ev else ev).
Proof.
  intros Hev. unfold EventModel.byPk in *.
  rewrite find_map_preserved, Hev; [reflexivity|].
  intros e. destruct (String.eqb (event_id e) (event_id target)); [|reflexivity].
  rewrite event_id_add. reflexivity.
Qed.

Lemma access_denied_add (c : EventModel.counter) (n : Z) (e : Event) (u : User) :
  access_denied (EventModel.add c n e) u = access_denied e u.
Proof. destruct c; reflexivity. Qed.

Lemma has_id_found (k : value) (rows : list obj) (p : obj) :
  ParticipantModel.byPk k rows = Some p -> get p "id" = k.
Proof.
  intros H. apply List.find_some in H as [_ H].
  unfold ParticipantModel.has_id in H. apply bool_decide_eq_true in H. exact H.
Qed.

Lemma get_checkInValues_other (t m : value) (row : obj) (k : string) :
  k <> "checkedIn" -> k <> "checkInTime" -> k <> "checkInMethod" -> k <> "status" ->
  get (checkInValues t m ∪ row) k = get row k.
Proof.
  intros H1 H2 H3 H4. unfold get, checkInValues.
  rewrite lookup_union_r; [reflexivity|].
  rewrite !lookup_insert_ne by congruence. apply lookup_singleton_ne. congruence.
Qed.

Lemma get_checkInValues (t m : value) (row : obj) :
  get (checkInValues t m ∪ row) "checkedIn" = VBool true
  /\ get (checkInValues t m ∪ row) "checkInTime" = t
  /\ get (checkInValues t m ∪ row) "checkInMethod" = m
  /\ get (checkInValues t m ∪ row) "status" = VStr "attended".
Proof.
  unfold get, checkInValues.
  repeat split; (erewrite lookup_union_Some_l; [reflexivity|]); simplify_map_eq; reflexivity.
Qed.

(** Looking a participant up after the row with id [k'] was checked in. *)
Lemma byPk_after_checkIn (t m k k' : value) (rows : list obj) (p : obj) :
  ParticipantModel.byPk k rows = Some p ->
  ParticipantModel.byPk k (List.map (fun row =>
      if ParticipantModel.has_id k' row then checkInValues t m ∪ row else row) rows)
  = Some (if ParticipantModel.has_id k' p then checkInValues t m ∪ p else p).
Proof.
  intros Hp. unfold ParticipantModel.byPk in *.
  rewrite find_map_preserved, Hp; [reflexivity|].
  intros row. destruct (ParticipantModel.has_id k' row); [|reflexivity].
  unfold ParticipantModel.has_id. rewrite get_checkInValues_other by discriminate.
  reflexivity.
Qed.

Lemma has_id_self (p : obj) : ParticipantModel.has_id (get p "id") p = true.
Proof. apply bool_decide_eq_true_2. reflexivity. Qed.

(** C5: for a participant not yet checked in, a first check-in by an
    authorized caller succeeds: the participant gets checkedIn = true, the
    checkInTime, the checkInMethod and status 'attended', and the
    totalAttendees of its event grows by 1.  A second check-in of the same
    participant is answered 400 'Participant already checked in' and changes
    nothing, so the two calls add exactly 1 to totalAttendees. *)
Theorem checkin_twice (env1 env2 : Env) (req1 req2 : Request) (db : Db) (p : obj) (ev : Event) :
  get (params req2) "id" = get (params req1) "id" ->
  ParticipantModel.byPk (get (params req1) "id") (participants db) = Some p ->
  truthy (get p "checkedIn") = false ->
  EventModel.byPk (get p "eventId") (events db) = Some ev ->
  authorized ev (user req1) ->
  authorized ev (user req2) ->
  exists p' db1 ev1,
    checkInParticipant env1 req1 db
      = (res 200 (BParticipant p' (Some "Check-in successful")), db1)
    /\ get p' "checkedIn" = VBool true
    /\ get p' "checkInTime" = now env1
    /\ get p' "checkInMethod" = method_of req1
    /\ get p' "status" = VStr "attended"
    /\ ParticipantModel.byPk (get (params req1) "id") (participants db1) = Some p'
    /\ EventModel.byPk (get p "eventId") (events db1) = Some ev1
    /\ totalAttendees ev1 = totalAttendees ev + 1
    /\ totalRegistrations ev1 = totalRegistrations ev
    /\ checkInParticipant env2 req2 db1 = (AlreadyCheckedIn, db1).
Proof.
  intros Hid Hp Hin Hev Hu1 Hu2.
  set (m := method_of req1).
  destruct (get_checkInValues (now env1) m p) as (Hc & Ht & Hm & Hs).
  eexists (checkInValues (now env1) m ∪ p), _,
    (EventModel.add EventModel.TotalAttendees 1 ev).
  split.
  { unfold checkInParticipant. exec. fold (method_of req1). fold m. fold (now env1).
    rewrite Hp, Hev, (access_denied_false _ _ Hu1), Hin. reflexivity. }
  cbn [participants events set_events set_participants].
  assert (Hp1 : ParticipantModel.byPk (get (params req1) "id")
            (List.map (fun row => if ParticipantModel.has_id (get p "id") row
                                  then checkInValues (now env1) m ∪ row else row)
               (participants db))
          = Some (checkInValues (now env1) m ∪ p)).
  { rewrite (byPk_after_checkIn _ _ _ _ _ _ Hp), has_id_self. reflexivity. }
  assert (Hev1 : EventModel.byPk (get p "eventId")
            (List.map (fun e => if String.eqb (event_id e) (event_id ev)
                                then EventModel.add EventModel.TotalAttendees 1 e else e)
               (events db))
          = Some (EventModel.add EventModel.TotalAttendees 1 ev)).
  { rewrite (byPk_after_increment _ _ _ _ _ _ Hev), String.eqb_refl. reflexivity. }
  repeat (split; [first [assumption | reflexivity]|]).
  unfold checkInParticipant. exec.
  cbn [participants events set_events set_participants].
  rewrite Hid, Hp1.
  rewrite get_checkInValues_other by discriminate.
  cbn [participants events set_events set_participants].
  rewrite Hev1, access_denied_add, (access_denied_false _ _ Hu2), Hc. reflexivity.
Qed.

Lemma checkin_twice_witness :
  exists p' db1 ev1,
    checkInParticipant Sample.env Sample.alice_p1 Sample.db
      = (res 200 (BParticipant p' (Some "Check-in successful")), db1)
    /\ get p' "checkedIn" = VBool true
    /\ get p' "checkInTime" = now Sample.env
    /\ get p' "checkInMethod"
       = method_of Sample.alice_p1
    /\ get p' "status" = VStr "attended"
    /\ ParticipantModel.byPk (get (params Sample.alice_p1) "id")
         (participants db1) = Some p'
    /\ EventModel.byPk (get Sample.p1 "eventId")
         (events db1) = Some ev1
    /\ totalAttendees ev1
       = totalAttendees Sample.open_event + 1
    /\ totalRegistrations ev1
       = totalRegistrations Sample.open_event
    /\ checkInParticipant Sample.env_queue_down
         Sample.alice_p1_again db1
       = (AlreadyCheckedIn, db1).
Proof.
  apply (checkin_twice Sample.env Sample.env_queue_down
           Sample.alice_p1
           Sample.alice_p1_again
           Sample.db
           Sample.p1
           Sample.open_event);
    first [ vm_compute; reflexivity | left; reflexivity ].
Defined.

(** ** Bulk check-in *)

Lemma checkInValues_keys (t1 t2 m1 m2 : value) (k : string) :
  checkInValues t1 m1 !! k = None -> checkInValues t2 m2 !! k = None.
Proof.
  unfold checkInValues. intros H.
  destruct (decide (k = "checkedIn")) as [->|N1];
    [rewrite lookup_insert_eq in H; discriminate|].
  rewrite lookup_insert_ne in H by congruence. rewrite lookup_insert_ne by congruence.
  destruct (decide (k = "checkInTime")) as [->|N2];
    [rewrite lookup_insert_eq in H; discriminate|].
  rewrite lookup_insert_ne in H by congruence. rewrite lookup_insert_ne by congruence.
  destruct (decide (k = "checkInMethod")) as [->|N3];
    [rewrite lookup_insert_eq in H; discriminate|].
  rewrite lookup_insert_ne in H by congruence. rewrite lookup_insert_ne by congruence.
  destruct (decide (k = "status")) as [->|N4];
    [rewrite lookup_singleton_eq in H; discriminate|].
  apply lookup_singleton_ne. congruence.
Qed.

(** A later check-in of a row overwrites an earlier one. *)
Lemma check_in_again (t1 t2 m : value) (row : obj) :
  check_in t1 m (check_in t2 m row) = check_in t1 m row.
Proof.
  unfold check_in. apply map_eq. intros k. rewrite !lookup_union.
  destruct (checkInValues t1 m !! k) eqn:E1.
  - destruct (checkInValues t2 m !! k), (row !! k); reflexivity.
  - rewrite (checkInValues_keys _ _ _ _ _ E1). destruct (row !! k); reflexivity.
Qed.

Lemma has_id_check_in (t m k : value) (row : obj) :
  ParticipantModel.has_id k (check_in t m row) = ParticipantModel.has_id k row.
Proof.
  unfold ParticipantModel.has_id, check_in.
  rewrite get_checkInValues_other by discriminate. reflexivity.
Qed.

Lemma touched_check_in (t m : value) (ps : list obj) (row : obj) :
  touched ps (check_in t m row) = touched ps row.
Proof.
  unfold touched. induction ps as [|p ps IH]; simpl; [reflexivity|].
  rewrite has_id_check_in, IH. reflexivity.
Qed.

Lemma checkIn_stamp_check_in (t m : value) (ps : list obj) (k : nat) (row : obj) :
  checkIn_stamp ps k (check_in t m row) = checkIn_stamp ps k row.
Proof.
  revert k. induction ps as [|p ps IH]; intros k; [reflexivity|].
  cbn [checkIn_stamp]. rewrite !IH, has_id_check_in. reflexivity.
Qed.

(** One turn of the loop on a participant not yet checked in, followed by
    the rest of the loop, row by row. *)
Lemma checkIn_row_step (env : Env) (m : value) (p : obj) (ps : list obj) (k : nat)
    (row : obj) :
  checked_in p = false ->
  checkIn_row env m ps (S k)
    (if ParticipantModel.has_id (get p "id") row then check_in (clock env k) m row else row)
  = checkIn_row env m (p :: ps) k row.
Proof.
  intros Hc. unfold checkIn_row. cbn [checkIn_stamp]. rewrite Hc.
  destruct (ParticipantModel.has_id (get p "id") row).
  - rewrite checkIn_stamp_check_in.
    destruct (checkIn_stamp ps (S k) row); [apply check_in_again | reflexivity].
  - destruct (checkIn_stamp ps (S k) row); reflexivity.
Qed.

(** The loop returns what [checkIn_updated] lists and leaves each row as
    [checkIn_row] gives it; it never throws. *)
Lemma checkIn_each_run (env : Env) (m : value) (ps updated : list obj) (db : Db) :
  checkIn_each env m ps updated db
  = (Returned (updated ++ checkIn_updated env m ps (length updated))%list,
     set_participants (List.map (checkIn_row env m ps (length updated))) db).
Proof.
  revert updated db. induction ps as [|p ps IH]; intros updated db.
  - cbn [checkIn_each checkIn_updated]. unfold ret, set_participants.
    rewrite app_nil_r. destruct db as [evs rows q]. cbn [events participants emailQueue].
    do 2 f_equal.
    rewrite (List.map_ext (checkIn_row env m [] (length updated)) (fun row => row))
      by reflexivity.
    symmetry. apply List.map_id.
  - cbn [checkIn_each checkIn_updated]. fold (checked_in p).
    destruct (checked_in p) eqn:Hc; cbn [negb].
    + rewrite IH. f_equal. unfold set_participants. f_equal.
      apply List.map_ext. intros row.
      unfold checkIn_row. cbn [checkIn_stamp]. rewrite Hc. reflexivity.
    + exec. rewrite IH. fold (check_in (clock env (length updated)) m p).
      rewrite length_app. cbn [length]. rewrite Nat.add_1_r.
      rewrite <- app_assoc. cbn [app]. f_equal.
      unfold set_participants. cbn [events participants emailQueue].
      f_equal. rewrite List.map_map. apply List.map_ext. intros row.
      fold (check_in (clock env (length updated)) m row).
      apply checkIn_row_step, Hc.
Qed.

Lemma checkIn_updated_length (env : Env) (m : value) (ps : list obj) (k : nat) :
  length (checkIn_updated env m ps k)
  = length (List.filter (fun p => negb (checked_in p)) ps).
Proof.
  revert k. induction ps as [|p ps IH]; intros k; [reflexivity|].
  cbn [checkIn_updated List.filter]. destruct (checked_in p); cbn [negb length];
    rewrite IH; reflexivity.
Qed.

(** The loop writes to a row exactly when the row is touched, and the clock
    reading it leaves there is one of the readings of the loop. *)
Lemma checkIn_stamp_cases (ps : list obj) (k : nat) (row : obj) :
  match checkIn_stamp ps k row with
  | Some i =>
      touched ps row = true
      /\ (k <= i < k + length (List.filter (fun p => negb (checked_in p)) ps))%nat
  | None => touched ps row = false
  end.
Proof.
  revert k. induction ps as [|p ps IH]; intros k; [reflexivity|].
  cbn [checkIn_stamp touched existsb List.filter]. fold (touched ps row).
  destruct (checked_in p) eqn:Hc; cbn [negb andb orb length].
  - apply IH.
  - specialize (IH (S k)). destruct (checkIn_stamp ps (S k) row) as [i|].
    + destruct IH as [-> Hi]. rewrite Bool.orb_true_r. split; [reflexivity | lia].
    + rewrite IH, Bool.orb_false_r.
      destruct (ParticipantModel.has_id (get p "id") row); [|reflexivity].
      split; [reflexivity | lia].
Qed.

Lemma NoDup_map_filter {A B} (f : A -> B) (g : A -> bool) (l : list A) :
  NoDup (List.map f l) -> NoDup (List.map f (List.filter g l)).
Proof.
  induction l as [|a l IH]; simpl; [intros; constructor|].
  intros Hnd. apply NoDup_cons in Hnd as [Hnotin Hnd].
  destruct (g a); simpl; [|auto].
  apply NoDup_cons. split; [|auto].
  intros Hin. apply Hnotin.
  apply list_elem_of_In in Hin. apply list_elem_of_In.
  apply List.in_map_iff in Hin as (x & Hx & Hin).
  apply List.in_map_iff. exists x. split; [exact Hx|].
  apply List.filter_In in Hin. tauto.
Qed.

Lemma NoDup_map_eq {A B} (f : A -> B) (l : list A) (x y : A) :
  NoDup (List.map f l) -> In x l -> In y l -> f x = f y -> x = y.
Proof.
  induction l as [|a l IH]; simpl; [tauto|].
  intros Hnd Hx Hy Hf. apply NoDup_cons in Hnd as [Hnotin Hnd].
  destruct Hx as [->|Hx], Hy as [->|Hy]; auto.
  - exfalso. apply Hnotin. rewrite Hf. apply list_elem_of_In, List.in_map, Hy.
  - exfalso. apply Hnotin. rewrite <- Hf. apply list_elem_of_In, List.in_map, Hx.
Qed.

(** Among instances with distinct ids, the list the loop collects holds the
    rows as the loop leaves them. *)
Lemma checkIn_updated_rows (env : Env) (m : value) (ps : list obj) (k : nat) :
  NoDup (List.map (fun row => get row "id") ps) ->
  checkIn_updated env m ps k
  = List.map (checkIn_row env m ps k) (List.filter (fun p => negb (checked_in p)) ps).
Proof.
  revert k. induction ps as [|p ps IH]; intros k Hnd; [reflexivity|].
  cbn [List.map] in Hnd. apply NoDup_cons in Hnd as [Hnotin Hnd].
  cbn [checkIn_updated List.filter]. destruct (checked_in p) eqn:Hc; cbn [negb].
  - rewrite (IH k Hnd). apply List.map_ext. intros row.
    unfold checkIn_row. cbn [checkIn_stamp]. rewrite Hc. reflexivity.
  - cbn [List.map]. f_equal.
    + unfold checkIn_row. cbn [checkIn_stamp]. rewrite Hc.
      pose proof (checkIn_stamp_cases ps (S k) p) as Hst.
      destruct (checkIn_stamp ps (S k) p) as [i|]; [|rewrite has_id_self; reflexivity].
      exfalso. destruct Hst as [Ht _]. unfold touched in Ht.
      apply List.existsb_exists in Ht as (q & Hq & Hsame).
      apply Bool.andb_true_iff in Hsame as [_ Hsame].
      apply bool_decide_eq_true in Hsame. apply Hnotin. rewrite Hsame.
      apply list_elem_of_In, (List.in_map (fun row => get row "id")), Hq.
    + rewrite (IH (S k) Hnd). apply List.map_ext_in. intros q Hq.
      apply List.filter_In in Hq as [Hq Hqc]. apply Bool.negb_true_iff in Hqc.
      unfold checkIn_row. cbn [checkIn_stamp]. rewrite Hc.
      pose proof (checkIn_stamp_cases ps (S k) q) as Hst.
      destruct (checkIn_stamp ps (S k) q) as [i|]; [reflexivity|].
      exfalso. unfold touched in Hst.
      assert (existsb (fun p0 => negb (checked_in p0)
                && ParticipantModel.has_id (get p0 "id") q) ps = true) as Hyes;
        [|rewrite Hyes in Hst; discriminate].
      apply List.existsb_exists. exists q. split; [exact Hq|].
      rewrite Hqc, has_id_self. reflexivity.
Qed.

(** With distinct ids that all name a row of a table with distinct keys,
    the fetch returns one row per id. *)
Lemma matching_length (ids : list value) (db : Db) :
  NoDup ids ->
  NoDup (List.map (fun row => get row "id") (participants db)) ->
  (forall i, In i ids -> exists row, In row (participants db) /\ get row "id" = i) ->
  length (matching ids db) = length ids.
Proof.
  intros Hids Hpk Hall.
  rewrite <- (List.length_map (fun row => get row "id") (matching ids db)).
  apply Permutation_length, NoDup_Permutation; [|exact Hids|].
  - apply NoDup_map_filter, Hpk.
  - intros i. rewrite !list_elem_of_In, List.in_map_iff. split.
    + intros (row & <- & Hin). apply List.filter_In in Hin as [_ Hin].
      apply bool_decide_eq_true in Hin. apply list_elem_of_In, Hin.
    + intros Hi. destruct (Hall i Hi) as (row & Hrow & <-).
      exists row. split; [reflexivity|]. apply List.filter_In. split; [exact Hrow|].
      apply bool_decide_eq_true, list_elem_of_In, Hi.
Qed.

(** In a table with distinct keys, the loop touches exactly the fetched
    rows that were not checked in. *)
Lemma touched_matching (ids : list value) (db : Db) (row : obj) :
  NoDup (List.map (fun row => get row "id") (participants db)) ->
  In row (participants db) ->
  touched (matching ids db) row = ParticipantModel.id_in ids row && negb (checked_in row).
Proof.
  intros Hpk Hrow. apply Bool.eq_iff_eq_true.
  unfold touched. rewrite List.existsb_exists, Bool.andb_true_iff. split.
  - intros (p & Hp & Hc). apply List.filter_In in Hp as [Hp Hid].
    apply Bool.andb_true_iff in Hc as [Hc Hsame].
    apply bool_decide_eq_true in Hsame.
    assert (row = p) as -> by (apply (NoDup_map_eq _ _ _ _ Hpk Hrow Hp Hsame)).
    split; assumption.
  - intros [Hid Hc]. exists row. split.
    + apply List.filter_In. split; assumption.
    + rewrite Hc, has_id_self. reflexivity.
Qed.

Lemma lookup_check_in (t m : value) (row : obj) :
  check_in t m row !! "checkedIn" = Some (VBool true)
  /\ check_in t m row !! "checkInTime" = Some t
  /\ check_in t m row !! "checkInMethod" = Some m
  /\ check_in t m row !! "status" = Some (VStr "attended")
  /\ (forall k, k <> "checkedIn" -> k <> "checkInTime" -> k <> "checkInMethod" ->
                k <> "status" -> check_in t m row !! k = row !! k).
Proof.
  unfold check_in, checkInValues.
  repeat split; try (apply lookup_union_Some_l; simplify_map_eq; reflexivity).
  intros k H1 H2 H3 H4. apply lookup_union_r.
  rewrite !lookup_insert_ne by congruence. apply lookup_singleton_ne. congruence.
Qed.

(** C6: a bulk check-in by an authorized caller over N distinct ids that
    each name a participant, K of them already checked in, checks the other
    N-K in as a single check-in does: each of their rows gets checkedIn =
    true, status 'attended', the check-in method of the request and the time
    of one of the N-K clock readings of the loop, and keeps its other
    columns.  The K rows already checked in, and the rows not named, are left
    as they were, without an error.  The returned list holds the N-K rows as
    stored, and totalAttendees of the event grows by N-K in one increment. *)
Theorem bulk_checkin_counts (env : Env) (req : Request) (db : Db)
    (ids : list value) (first : obj) (rest : list obj) (ev : Event) :
  get (body req) "participantIds" = VArr ids ->
  NoDup ids ->
  NoDup (List.map (fun row => get row "id") (participants db)) ->
  (forall i, In i ids -> exists row, In row (participants db) /\ get row "id" = i) ->
  matching ids db = first :: rest ->
  EventModel.byPk (get first "eventId") (events db) = Some ev ->
  authorized ev (user req) ->
  exists updated db' ev' stored,
    bulkCheckIn env req db
      = (res 200 (BBulk (pretty (length ids - already_checked_in ids db)%nat
                         +:+ " participants checked in") updated), db')
    /\ length updated = (length ids - already_checked_in ids db)%nat
    /\ participants db' = List.map stored (participants db)
    /\ updated
       = List.map stored (List.filter (fun p => negb (checked_in p)) (matching ids db))
    /\ (forall row,
          In row (participants db) ->
          ParticipantModel.id_in ids row = true ->
          checked_in row = false ->
          stored row !! "checkedIn" = Some (VBool true)
          /\ stored row !! "status" = Some (VStr "attended")
          /\ stored row !! "checkInMethod" = Some (method_of req)
          /\ (exists i, (i < length ids - already_checked_in ids db)%nat
                        /\ stored row !! "checkInTime" = Some (clock env i))
          /\ (forall k, k <> "checkedIn" -> k <> "checkInTime" ->
                        k <> "checkInMethod" -> k <> "status" ->
                        stored row !! k = row !! k))
    /\ (forall row,
          In row (participants db) ->
          ParticipantModel.id_in ids row = false \/ checked_in row = true ->
          stored row = row)
    /\ events db'
       = List.map (fun e =>
           if String.eqb (event_id e) (event_id ev)
           then EventModel.add EventModel.TotalAttendees
                  (Z.of_nat (length ids - already_checked_in ids db)) e
           else e) (events db)
    /\ EventModel.byPk (get first "eventId") (events db') = Some ev'
    /\ totalAttendees ev'
       = totalAttendees ev
         + Z.of_nat (length ids - already_checked_in ids db).
Proof.
  intros Hbody Hids Hpk Hall Hfetch Hev Hauth.
  set (m := method_of req).
  set (K := already_checked_in ids db).
  assert (Hcount : length (List.filter (fun p => negb (checked_in p)) (matching ids db))
                   = (length ids - K)%nat).
  { rewrite <- (matching_length ids db Hids Hpk Hall).
    pose proof (List.filter_length checked_in (matching ids db)) as Hsum.
    unfold K, already_checked_in. lia. }
  assert (Hlen : length (checkIn_updated env m (matching ids db) 0) = (length ids - K)%nat).
  { rewrite checkIn_updated_length. exact Hcount. }
  exists (checkIn_updated env m (matching ids db) 0),
    (set_events (List.map (fun e =>
        if String.eqb (event_id e) (event_id ev)
        then EventModel.add EventModel.TotalAttendees (Z.of_nat (length ids - K)) e
        else e))
       (set_participants (List.map (checkIn_row env m (matching ids db) 0)) db)),
    (EventModel.add EventModel.TotalAttendees (Z.of_nat (length ids - K)) ev),
    (checkIn_row env m (matching ids db) 0).
  split.
  { unfold bulkCheckIn. exec. fold (method_of req). fold m. rewrite Hbody.
    cbn [truthy isArray negb orb elements_of].
    fold (matching ids db). rewrite Hfetch, Hev, (access_denied_false _ _ Hauth).
    rewrite <- Hfetch, checkIn_each_run. cbn [app length]. rewrite Hlen. reflexivity. }
  split; [exact Hlen|].
  cbn [participants events set_events set_participants].
  split; [reflexivity|].
  split; [apply checkIn_updated_rows, NoDup_map_filter, Hpk|].
  split.
  { intros row Hrow Hin Hc. unfold checkIn_row.
    pose proof (checkIn_stamp_cases (matching ids db) 0 row) as Hst.
    rewrite (touched_matching _ _ _ Hpk Hrow), Hin, Hc in Hst.
    destruct (checkIn_stamp (matching ids db) 0 row) as [i|]; [|discriminate].
    destruct Hst as [_ Hi]. rewrite Hcount in Hi.
    destruct (lookup_check_in (clock env i) m row) as (H1 & H2 & H3 & H4 & H5).
    split; [exact H1|]. split; [exact H4|]. split; [exact H3|].
    split; [exists i; split; [lia | exact H2] | exact H5]. }
  split.
  { intros row Hrow Hno. unfold checkIn_row.
    pose proof (checkIn_stamp_cases (matching ids db) 0 row) as Hst.
    rewrite (touched_matching _ _ _ Hpk Hrow) in Hst.
    destruct (checkIn_stamp (matching ids db) 0 row) as [i|]; [|reflexivity].
    destruct Hst as [Ht _]. apply Bool.andb_true_iff in Ht as [Hin Hc].
    apply Bool.negb_true_iff in Hc. destruct Hno as [Hno|Hno]; congruence. }
  split; [reflexivity|]. split.
  { rewrite (byPk_after_increment _ _ _ _ _ _ Hev), String.eqb_refl. reflexivity. }
  reflexivity.
Qed.

Lemma bulk_checkin_counts_witness :
  exists updated db' ev' stored,
    bulkCheckIn Sample.env Sample.alice_bulk Sample.db
      = (res 200 (BBulk (pretty (length Sample.ids - already_checked_in Sample.ids Sample.db)%nat
                         +:+ " participants checked in") updated), db')
    /\ length updated = (length Sample.ids - already_checked_in Sample.ids Sample.db)%nat
    /\ participants db' = List.map stored (participants Sample.db)
    /\ updated
       = List.map stored
           (List.filter (fun p => negb (checked_in p)) (matching Sample.ids Sample.db))
    /\ (forall row,
          In row (participants Sample.db) ->
          ParticipantModel.id_in Sample.ids row = true ->
          checked_in row = false ->
          stored row !! "checkedIn" = Some (VBool true)
          /\ stored row !! "status" = Some (VStr "attended")
          /\ stored row !! "checkInMethod" = Some (method_of Sample.alice_bulk)
          /\ (exists i, (i < length Sample.ids - already_checked_in Sample.ids Sample.db)%nat
                        /\ stored row !! "checkInTime" = Some (clock Sample.env i))
          /\ (forall k, k <> "checkedIn" -> k <> "checkInTime" ->
                        k <> "checkInMethod" -> k <> "status" ->
                        stored row !! k = row !! k))
    /\ (forall row,
          In row (participants Sample.db) ->
          ParticipantModel.id_in Sample.ids row = false \/ checked_in row = true ->
          stored row = row)
    /\ events db'
       = List.map (fun e =>
           if String.eqb (event_id e) (event_id Sample.open_event)
           then EventModel.add EventModel.TotalAttendees
                  (Z.of_nat (length Sample.ids - already_checked_in Sample.ids Sample.db)) e
           else e) (events Sample.db)
    /\ EventModel.byPk (get Sample.p1 "eventId") (events db') = Some ev'
    /\ totalAttendees ev'
       = totalAttendees Sample.open_event
         + Z.of_nat (length Sample.ids - already_checked_in Sample.ids Sample.db).
Proof.
  apply (bulk_checkin_counts Sample.env Sample.alice_bulk Sample.db Sample.ids
           Sample.p1 [Sample.p2] Sample.open_event).
  - vm_compute; reflexivity.
  - refine (bool_decide_unpack _ _). vm_compute. exact I.
  - refine (bool_decide_unpack _ _). vm_compute. exact I.
  - intros i [<-|[<-|[]]].
    + exists Sample.p1.
      split; [left; reflexivity | vm_compute; reflexivity].
    + exists Sample.p2.
      split; [right; left; reflexivity | vm_compute; reflexivity].
  - vm_compute; reflexivity.
  - vm_compute; reflexivity.
  - left; reflexivity.
Defined.

(** On the sample data the bulk check-in of p1 and p2 reports one check-in. *)
Example bulk_checkin_sample :
  json (fst (bulkCheckIn Sample.env Sample.alice_bulk Sample.db))
  = BBulk "1 participants checked in"
      [check_in (clock Sample.env 0) (VStr "manual") Sample.p1].
Proof. vm_compute; reflexivity. Qed.

(** Each participant of a bulk check-in gets the clock reading of its own
    update: p1 and p3 are stamped with two successive readings. *)
Example bulk_checkin_clock_sample :
  match json (fst (bulkCheckIn Sample.env Sample.alice_bulk_foreign Sample.db)) with
  | BBulk _ updated => List.map (fun p => get p "checkInTime") updated
  | _ => []
  end
  = [VNum 1700000000; VNum 1700000001].
Proof. vm_compute; reflexivity. Qed.
(** ** Deletion *)

Lemma byPk_after_destroy (k : value) (rows : list obj) :
  ParticipantModel.byPk k
    (List.filter (fun row => negb (ParticipantModel.has_id k row)) rows) = None.
Proof.
  unfold ParticipantModel.byPk.
  destruct (List.find _ _) as [row|] eqn:E; [|reflexivity].
  apply List.find_some in E as [Hin Hid].
  apply List.filter_In in Hin as [_ Hnot]. rewrite Hid in Hnot. discriminate.
Qed.

(** C7: an authorized delete of an existing participant removes its row, so
    that a later get-by-id of that id is answered 404 'Participant not
    found', and takes exactly 1 off the totalRegistrations of the owning
    event; the other rows, the other columns of the event and the other
    events stay as they were. *)
Theorem delete_participant (env : Env) (req : Request) (db : Db) (p : obj) (ev : Event) :
  ParticipantModel.byPk (get (params req) "id") (participants db) = Some p ->
  EventModel.byPk (get p "eventId") (events db) = Some ev ->
  authorized ev (user req) ->
  exists db',
    deleteParticipant env req db
      = (res 200 (BMessage "Participant deleted successfully"), db')
    /\ ParticipantModel.byPk (get (params req) "id") (participants db') = None
    /\ (forall env2 req2,
         get (params req2) "id" = get (params req) "id" ->
         getParticipantById env2 req2 db' = (ParticipantNotFound, db'))
    /\ (forall row,
         In row (participants db') <->
         In row (participants db) /\ get row "id" <> get (params req) "id")
    /\ EventModel.byPk (get p "eventId") (events db')
       = Some {| event_id := event_id ev; name := name ev; date := date ev;
                 venue := venue ev; status := status ev; capacity := capacity ev;
                 totalRegistrations := totalRegistrations ev - 1;
                 totalAttendees := totalAttendees ev;
                 organizerId := organizerId ev;
                 requiresApproval := requiresApproval ev |}
    /\ (forall e,
         event_id e <> event_id ev ->
         (In e (events db') <-> In e (events db)))
    /\ emailQueue db' = emailQueue db.
Proof.
  intros Hp Hev Hauth. pose proof (has_id_found _ _ _ Hp) as Hid.
  eexists. split.
  { unfold deleteParticipant. exec.
    rewrite Hp, Hev, (access_denied_false _ _ Hauth). reflexivity. }
  cbn [participants events emailQueue set_events set_participants].
  rewrite Hid.
  split; [apply byPk_after_destroy|].
  split.
  { intros env2 req2 Hsame. unfold getParticipantById. exec.
    cbn [participants events emailQueue set_events set_participants].
    rewrite Hsame, byPk_after_destroy. reflexivity. }
  split.
  { intros row. rewrite List.filter_In. unfold ParticipantModel.has_id.
    rewrite Bool.negb_true_iff, bool_decide_eq_false. reflexivity. }
  split.
  { rewrite (byPk_after_increment _ _ _ _ _ _ Hev), String.eqb_refl. reflexivity. }
  split; [|reflexivity].
  intros e Hne. rewrite List.in_map_iff. split.
  - intros (e0 & He0 & Hin).
    destruct (String.eqb (event_id e0) (event_id ev)) eqn:E.
    + exfalso. apply Hne. rewrite <- He0, event_id_add.
      apply String.eqb_eq, E.
    + rewrite <- He0. exact Hin.
  - intros Hin. exists e. split; [|exact Hin].
    apply String.eqb_neq in Hne. rewrite Hne. reflexivity.
Qed.

Lemma delete_participant_witness :
  exists db',
    deleteParticipant Sample.env Sample.alice_p1 Sample.db
      = (res 200 (BMessage "Participant deleted successfully"), db')
    /\ ParticipantModel.byPk (get (params Sample.alice_p1) "id") (participants db') = None
    /\ (forall env2 req2,
         get (params req2) "id" = get (params Sample.alice_p1) "id" ->
         getParticipantById env2 req2 db' = (ParticipantNotFound, db'))
    /\ (forall row,
         In row (participants db') <->
         In row (participants Sample.db) /\ get row "id" <> get (params Sample.alice_p1) "id")
    /\ EventModel.byPk (get Sample.p1 "eventId") (events db')
       = Some {| event_id := event_id Sample.open_event;
                 name := name Sample.open_event;
                 date := date Sample.open_event;
                 venue := venue Sample.open_event;
                 status := status Sample.open_event;
                 capacity := capacity Sample.open_event;
                 totalRegistrations := totalRegistrations Sample.open_event - 1;
                 totalAttendees := totalAttendees Sample.open_event;
                 organizerId := organizerId Sample.open_event;
                 requiresApproval := requiresApproval Sample.open_event |}
    /\ (forall e,
         event_id e <> event_id Sample.open_event ->
         (In e (events db') <-> In e (events Sample.db)))
    /\ emailQueue db' = emailQueue Sample.db.
Proof.
  apply (delete_participant Sample.env Sample.alice_p1 Sample.db
           Sample.p1
           Sample.open_event);
    first [ vm_compute; reflexivity | left; reflexivity ].
Defined.

(** ** A failing queue *)



(** ** A participant without its event *)

(** C9: when the participant exists and no Event row has its eventId,
    get-by-id, update, delete and single check-in do not answer 404: reading
    organizerId of the null event throws, and the caller gets the generic
    500 of the handler, with the state left as it was. *)
Theorem missing_event_internal (env : Env) (req : Request) (db : Db) (p : obj) :
  ParticipantModel.byPk (get (params req) "id") (participants db) = Some p ->
  EventModel.byPk (get p "eventId") (events db) = None ->
  getParticipantById env req db = (Internal "Failed to fetch participant", db)
  /\ updateParticipant env req db = (Internal "Failed to update participant", db)
  /\ deleteParticipant env req db = (Internal "Failed to delete participant", db)
  /\ checkInParticipant env req db = (Internal "Failed to check in participant", db)
  /\ (forall message, Internal message <> ParticipantNotFound).
Proof.
  intros Hp Hev. repeat split.
  - unfold getParticipantById. exec. rewrite Hp, Hev. reflexivity.
  - unfold updateParticipant. exec. rewrite Hp, Hev. reflexivity.
  - unfold deleteParticipant. exec. rewrite Hp, Hev. reflexivity.
  - unfold checkInParticipant. exec. rewrite Hp, Hev. reflexivity.
  - intros message. unfold Internal, ParticipantNotFound. discriminate.
Qed.

Lemma missing_event_internal_witness :
  getParticipantById Sample.env Sample.alice_p5 Sample.db
    = (Internal "Failed to fetch participant", Sample.db)
  /\ updateParticipant Sample.env Sample.alice_p5 Sample.db
    = (Internal "Failed to update participant", Sample.db)
  /\ deleteParticipant Sample.env Sample.alice_p5 Sample.db
    = (Internal "Failed to delete participant", Sample.db)
  /\ checkInParticipant Sample.env Sample.alice_p5 Sample.db
    = (Internal "Failed to check in participant", Sample.db)
  /\ (forall message, Internal message <> ParticipantNotFound).
Proof.
  apply (missing_event_internal Sample.env Sample.alice_p5
           Sample.db Sample.p5);
    vm_compute; reflexivity.
Defined.

(** ** Server-set fields *)

Lemma registration_values_agree (env : Env) (req1 req2 : Request) (ev : Event) :
  get (params req1) "eventId" = get (params req2) "eventId" ->
  (forall k, k <> "eventId" -> k <> "ticketNumber" -> k <> "status" ->
             body req1 !! k = body req2 !! k) ->
  registration_values env req1 ev = registration_values env req2 ev.
Proof.
  intros Hparam Hbody. unfold registration_values. rewrite Hparam.
  apply map_eq. intros k.
  destruct (decide (k = "status")) as [->|H1]; [rewrite !lookup_insert_eq; reflexivity|].
  rewrite !(lookup_insert_ne _ "status") by congruence.
  destruct (decide (k = "ticketNumber")) as [->|H2]; [rewrite !lookup_insert_eq; reflexivity|].
  rewrite !(lookup_insert_ne _ "ticketNumber") by congruence.
  destruct (decide (k = "eventId")) as [->|H3]; [rewrite !lookup_insert_eq; reflexivity|].
  rewrite !(lookup_insert_ne _ "eventId") by congruence.
  apply Hbody; assumption.
Qed.

(** C10: the eventId, ticketNumber and status of the participant a
    registration creates do not depend on what the body says for these keys.
    Two requests to the same path whose bodies differ at most at eventId,
    ticketNumber and status get the same answer and leave the same state,
    and the created participant carries the path parameter, the generated
    ticket number and the status chosen by requiresApproval. *)
Theorem registration_ignores_body_overrides (env : Env) (req1 req2 : Request) (db : Db) :
  get (params req1) "eventId" = get (params req2) "eventId" ->
  (forall k, k <> "eventId" -> k <> "ticketNumber" -> k <> "status" ->
             body req1 !! k = body req2 !! k) ->
  registerParticipant env req1 db = registerParticipant env req2 db
  /\ (forall p msg db',
       registerParticipant env req1 db = (res 201 (BParticipant p msg), db') ->
       exists ev,
         EventModel.byPk (get (params req1) "eventId") (events db) = Some ev
         /\ get p "eventId" = get (params req1) "eventId"
         /\ get p "ticketNumber"
            = VStr ("TKT-" +:+ toUpperCase (toString_hex (randomBytes env 4)))
         /\ get p "status"
            = VStr (if requiresApproval ev then "registered" else "confirmed")).
Proof.
  intros Hparam Hbody. split.
  - assert (Hemail : get (body req1) "email" = get (body req2) "email").
    { unfold get. rewrite (Hbody "email") by discriminate. reflexivity. }
    unfold registerParticipant. exec. rewrite <- Hparam, <- Hemail.
    destruct (EventModel.byPk (get (params req1) "eventId") (events db)) as [ev|];
      [|reflexivity].
    destruct (negb (String.eqb (status ev) "published")); [reflexivity|].
    destruct (truthy (nullable (capacity ev))
              && (default 0 (capacity ev) <=? totalRegistrations ev)); [reflexivity|].
    destruct (List.find _ (participants db)); [reflexivity|].
    pose proof (registration_values_agree env req1 req2 ev Hparam Hbody) as Hv.
    unfold registration_values in Hv. rewrite <- Hparam in Hv. rewrite <- Hv.
    reflexivity.
  - intros p msg db' Hrun.
    destruct (register_created_inv env req1 db db' _ Hrun eq_refl)
      as (ev & job & Hev & _ & _ & _ & Hr & _).
    injection Hr as -> _. exists ev.
    split; [exact Hev|].
    split; [apply registration_values_eventId|].
    split; [apply registration_values_ticketNumber | apply registration_values_status].
Qed.

Lemma registration_ignores_body_overrides_witness :
  registerParticipant Sample.env Sample.dan_to_open Sample.db
  = registerParticipant Sample.env Sample.forged_to_open Sample.db
  /\ (forall p msg db',
       registerParticipant Sample.env Sample.dan_to_open Sample.db
       = (res 201 (BParticipant p msg), db') ->
       exists ev,
         EventModel.byPk (get (params Sample.dan_to_open) "eventId") (events Sample.db) = Some ev
         /\ get p "eventId" = get (params Sample.dan_to_open) "eventId"
         /\ get p "ticketNumber"
            = VStr ("TKT-" +:+ toUpperCase (toString_hex (randomBytes Sample.env 4)))
         /\ get p "status"
            = VStr (if requiresApproval ev then "registered" else "confirmed")).
Proof.
  apply (registration_ignores_body_overrides Sample.env
           Sample.dan_to_open
           Sample.forged_to_open Sample.db).
  - reflexivity.
  - intros k H1 H2 H3. unfold Sample.dan_to_open, Sample.forged_to_open, Sample.forged.
    cbn [body Sample.request].
    rewrite !lookup_insert_ne by congruence. reflexivity.
Defined.

(** On the sample data, a body that names another event, a ticket number
    and a status of its own is registered to the event of the path, with
    the generated ticket number and the status of the event's policy. *)
Example forged_registration_sample :
  (fun p => (get p "eventId", get p "ticketNumber", get p "status")) <$>
    last (participants (snd (registerParticipant Sample.env
      Sample.forged_to_open Sample.db)))
  = Some (VStr "open", VStr "TKT-DEAD0BEF", VStr "confirmed").
Proof. vm_compute; reflexivity. Qed.

(** * Further properties *)

(** ** Registration *)

(** The run of a registration whose four checks pass, with the job it queues. *)
Lemma register_run (env : Env) (req : Request) (db : Db) (ev : Event) :
  EventModel.byPk (get (params req) "eventId") (events db) = Some ev ->
  status ev = "published" ->
  ~ capacity_reached ev ->
  List.find (ParticipantModel.registered_as (get (params req) "eventId")
               (get (body req) "email")) (participants db) = None ->
  registerParticipant env req db =
    if queueThrows env
    then (Internal "Failed to register participant", registration_stored env req ev db)
    else (res 201 (BParticipant (created_participant env req ev)
                     (Some "Registration successful")),
          set_emailQueue
            (fun q => (q ++ [confirmation_job env ev (created_participant env req ev)])%list)
            (registration_stored env req ev db)).
Proof.
  intros Hev Hst Hcap Hnew.
  unfold registerParticipant. exec. rewrite Hev.
  rewrite (eqb_published _ Hst), (capacity_guard_false _ Hcap), Hnew.
  destruct (queueThrows env); reflexivity.
Qed.

(** Every run of a registration: a failed check, or the run above. *)
Lemma register_cases (env : Env) (req : Request) (db : Db) :
  (In (fst (registerParticipant env req db))
      [EventNotFound; InvalidState; CapacityExceeded; AlreadyRegistered]
   /\ snd (registerParticipant env req db) = db)
  \/ (exists ev,
        EventModel.byPk (get (params req) "eventId") (events db) = Some ev
        /\ status ev = "published"
        /\ ~ capacity_reached ev
        /\ List.find (ParticipantModel.registered_as (get (params req) "eventId")
                        (get (body req) "email")) (participants db) = None).
Proof.
  destruct (EventModel.byPk (get (params req) "eventId") (events db)) as [ev|] eqn:Hev.
  2:{ left. unfold registerParticipant. exec. rewrite Hev. simpl. auto. }
  destruct (String.string_dec (status ev) "published") as [Hst|Hst].
  2:{ left. unfold registerParticipant. exec. rewrite Hev, (neqb_published _ Hst).
      simpl. auto. }
  destruct (truthy (nullable (capacity ev))
            && (default 0 (capacity ev) <=? totalRegistrations ev)) eqn:Hg.
  { left. unfold registerParticipant. exec. rewrite Hev, (eqb_published _ Hst), Hg.
    simpl. auto. }
  assert (Hcap : ~ capacity_reached ev).
  { intros Hc. rewrite (capacity_guard_true _ Hc) in Hg. discriminate. }
  destruct (List.find (ParticipantModel.registered_as (get (params req) "eventId")
              (get (body req) "email")) (participants db)) as [row|] eqn:Hnew.
  { left. unfold registerParticipant. exec.
    rewrite Hev, (eqb_published _ Hst), Hg, Hnew. simpl. auto 6. }
  right. exists ev. auto.
Qed.



(** X2: registerParticipant has six answers and no other: 404 'Event not
    found', 400 'Event is not open for registration', 400 'Event is at full
    capacity', 400 'Already registered for this event', 500 'Failed to
    register participant' and 201 'Registration successful'.  It never
    answers 403, whoever calls.  It answers 201 only when the event exists,
    is published, has not reached a non-zero capacity, no row has the same
    (eventId, email), and the enqueue step did not throw. *)
Theorem register_outcomes (env : Env) (req : Request) (db : Db) :
  In (fst (registerParticipant env req db))
     [EventNotFound; InvalidState; CapacityExceeded; AlreadyRegistered;
      Internal "Failed to register participant"]
  \/ (exists p ev,
        fst (registerParticipant env req db)
          = res 201 (BParticipant p (Some "Registration successful"))
        /\ EventModel.byPk (get (params req) "eventId") (events db) = Some ev
        /\ status ev = "published"
        /\ ~ capacity_reached ev
        /\ ~ already_registered (get (params req) "eventId") (get (body req) "email")
               (participants db)
        /\ queueThrows env = false).
Proof.
  destruct (register_cases env req db) as [[Hfail _]|(ev & Hev & Hst & Hcap & Hnew)].
  - left. cbn [In] in *. tauto.
  - rewrite (register_run env req db ev Hev Hst Hcap Hnew).
    destruct (queueThrows env) eqn:Hq.
    + left. cbn. tauto.
    + right. exists (created_participant env req ev), ev.
      split; [reflexivity|]. split; [exact Hev|]. split; [exact Hst|].
      split; [exact Hcap|]. split; [|reflexivity].
      intros (row & Hrow & He & Hm).
      pose proof (List.find_none _ _ Hnew row Hrow) as Hno.
      unfold ParticipantModel.registered_as in Hno.
      rewrite !bool_decide_eq_true_2 in Hno by assumption. discriminate.
Qed.

Lemma created_participant_key (env : Env) (req : Request) (ev : Event) :
  registration_key (created_participant env req ev)
  = (get (params req) "eventId", get (body req) "email").
Proof.
  unfold registration_key, created_participant. f_equal.
  - apply registration_values_eventId.
  - unfold get, registration_values, ParticipantModel.defaults.
    rewrite lookup_union. rewrite !lookup_insert_ne by discriminate.
    rewrite lookup_singleton_ne by discriminate.
    destruct (body req !! "email"); reflexivity.
Qed.

(** What the table holds after a registration: the rows before, and the
    created row when the checks passed. *)
Lemma register_participants (env : Env) (req : Request) (db : Db) :
  participants (snd (registerParticipant env req db)) = participants db
  \/ (exists ev,
        List.find (ParticipantModel.registered_as (get (params req) "eventId")
                     (get (body req) "email")) (participants db) = None
        /\ participants (snd (registerParticipant env req db))
           = (participants db ++ [created_participant env req ev])%list).
Proof.
  destruct (register_cases env req db) as [[_ ->]|(ev & Hev & Hst & Hcap & Hnew)];
    [left; reflexivity|].
  right. exists ev. split; [exact Hnew|].
  rewrite (register_run env req db ev Hev Hst Hcap Hnew).
  destruct (queueThrows env); reflexivity.
Qed.

(** X3: registerParticipant keeps the table free of double registrations:
    if no two rows share (eventId, email) before a registration, none do
    after it, whatever the request and whether or not it succeeds. *)
Theorem register_keeps_registrations_unique (env : Env) (req : Request) (db : Db) :
  NoDup (List.map registration_key (participants db)) ->
  NoDup (List.map registration_key (participants (snd (registerParticipant env req db)))).
Proof.
  intros Hnd.
  destruct (register_participants env req db) as [->|(ev & Hnew & ->)]; [exact Hnd|].
  rewrite List.map_app. cbn [List.map]. rewrite created_participant_key.
  apply NoDup_app. split; [exact Hnd|]. split; [|apply NoDup_singleton].
  intros key Hin Hkey. apply list_elem_of_In in Hin.
  apply list_elem_of_singleton in Hkey. subst key.
  apply List.in_map_iff in Hin as (row & Hrow & Hin).
  pose proof (List.find_none _ _ Hnew row Hin) as Hno.
  unfold ParticipantModel.registered_as in Hno.
  unfold registration_key in Hrow. injection Hrow as He Hm.
  rewrite !bool_decide_eq_true_2 in Hno by assumption. discriminate.
Qed.

Lemma register_keeps_registrations_unique_witness :
  NoDup (List.map registration_key (participants (snd (registerParticipant Sample.env
      Sample.dan_to_open Sample.db)))).
Proof.
  apply (register_keeps_registrations_unique Sample.env Sample.dan_to_open Sample.db).
  - refine (bool_decide_unpack _ _); vm_compute; exact I.
Defined.

Lemma byPk_key (k : value) (rows : list Event) (e : Event) :
  EventModel.byPk k rows = Some e -> k = VStr (event_id e).
Proof.
  intros H. apply List.find_some in H as [_ H].
  apply bool_decide_eq_true in H. symmetry. exact H.
Qed.

(** The events after a registration: as before, or with the registration
    counted on the event of the path. *)
Lemma register_events (env : Env) (req : Request) (db : Db) :
  events (snd (registerParticipant env req db)) = events db
  \/ (exists ev,
        EventModel.byPk (get (params req) "eventId") (events db) = Some ev
        /\ ~ capacity_reached ev
        /\ events (snd (registerParticipant env req db))
           = List.map (fun e =>
               if String.eqb (event_id e) (event_id ev)
               then EventModel.add EventModel.TotalRegistrations 1 e else e) (events db)).
Proof.
  destruct (register_cases env req db) as [[_ ->]|(ev & Hev & Hst & Hcap & Hnew)];
    [left; reflexivity|].
  right. exists ev. split; [exact Hev|]. split; [exact Hcap|].
  rewrite (register_run env req db ev Hev Hst Hcap Hnew).
  destruct (queueThrows env); reflexivity.
Qed.

(** X4: registerParticipant never takes an event past its capacity: an
    event whose totalRegistrations is within its non-zero capacity before a
    registration is within it after, whatever the request. *)
Theorem register_keeps_capacity (env : Env) (req : Request) (db : Db) (k : value) (e : Event) :
  EventModel.byPk k (events db) = Some e ->
  within_capacity e ->
  exists e',
    EventModel.byPk k (events (snd (registerParticipant env req db))) = Some e'
    /\ capacity e' = capacity e
    /\ within_capacity e'.
Proof.
  intros He Hin.
  destruct (register_events env req db) as [->|(ev & Hev & Hcap & ->)];
    [exists e; auto|].
  rewrite (byPk_after_increment _ _ _ _ _ _ He).
  destruct (String.eqb (event_id e) (event_id ev)) eqn:Hid; [|exists e; auto].
  apply String.eqb_eq in Hid.
  assert (e = ev) as ->.
  { pose proof (byPk_key _ _ _ He) as Hk. rewrite Hid in Hk.
    rewrite <- (byPk_key _ _ _ Hev) in Hk. subst k. congruence. }
  eexists. split; [reflexivity|]. split; [reflexivity|].
  intros c Hc Hnz. cbn [EventModel.add capacity totalRegistrations] in *.
  destruct (Z_le_gt_dec c (totalRegistrations ev)) as [Hle|Hgt]; [|lia].
  exfalso. apply Hcap. exists c. auto.
Qed.

Lemma register_keeps_capacity_witness :
  exists e',
    EventModel.byPk (VStr "open") (events (snd (registerParticipant Sample.env Sample.dan_to_open
        Sample.db))) = Some e'
    /\ capacity e' = capacity Sample.open_event
    /\ within_capacity e'.
Proof.
  apply (register_keeps_capacity Sample.env Sample.dan_to_open Sample.db (VStr "open")
      Sample.open_event).
  - vm_compute; reflexivity.
  - intros c Hc Hnz; simpl in Hc; injection Hc as <-; simpl; lia.
Defined.




(** ** What a request leaves untouched *)

(** X6: the two reading handlers never write: whatever the request, the
    caller and the answer (200, 403, 404 or 500), getEventParticipants and
    getParticipantById leave the state exactly as it was. *)
Theorem reads_change_nothing (env : Env) (req : Request) (db : Db) :
  snd (getEventParticipants env req db) = db
  /\ snd (getParticipantById env req db) = db.
Proof.
  split.
  - unfold getEventParticipants. exec.
    destruct (EventModel.byPk _ (events db)); [|reflexivity].
    destruct (access_denied _ _); [reflexivity|].
    destruct (findAndCountAll env _ _ _ _) as [[count rows]|]; reflexivity.
  - unfold getParticipantById. exec.
    destruct (ParticipantModel.byPk _ (participants db)) as [p|]; [|reflexivity].
    destruct (EventModel.byPk _ (events db)); [|reflexivity].
    destruct (access_denied _ _); reflexivity.
Qed.

(** X7: a request that is not answered with success changes nothing, with
    one exception: update, delete, single and bulk check-in leave the state
    as it was unless they answer 200, and registration leaves it as it was
    unless it answers 201 or 500. *)
Theorem failed_requests_change_nothing (env : Env) (req : Request) (db : Db) :
  (code (fst (registerParticipant env req db)) <> 201 ->
   code (fst (registerParticipant env req db)) <> 500 ->
   snd (registerParticipant env req db) = db)
  /\ (code (fst (updateParticipant env req db)) <> 200 ->
      snd (updateParticipant env req db) = db)
  /\ (code (fst (deleteParticipant env req db)) <> 200 ->
      snd (deleteParticipant env req db) = db)
  /\ (code (fst (checkInParticipant env req db)) <> 200 ->
      snd (checkInParticipant env req db) = db)
  /\ (code (fst (bulkCheckIn env req db)) <> 200 ->
      snd (bulkCheckIn env req db) = db).
Proof.
  split; [|split; [|split; [|split]]].
  - intros H201 H500.
    destruct (register_cases env req db) as [[_ Hsame]|(ev & Hev & Hst & Hcap & Hnew)];
      [exact Hsame|].
    rewrite (register_run env req db ev Hev Hst Hcap Hnew) in H201, H500.
    destruct (queueThrows env); [elim H500 | elim H201]; reflexivity.
  - unfold updateParticipant. exec.
    destruct (ParticipantModel.byPk _ (participants db)) as [p|]; [|reflexivity].
    destruct (EventModel.byPk _ (events db)); [|reflexivity].
    destruct (access_denied _ _); [reflexivity|].
    cbn. intros H. elim H; reflexivity.
  - unfold deleteParticipant. exec.
    destruct (ParticipantModel.byPk _ (participants db)) as [p|]; [|reflexivity].
    destruct (EventModel.byPk _ (events db)); [|reflexivity].
    destruct (access_denied _ _); [reflexivity|].
    cbn. intros H. elim H; reflexivity.
  - unfold checkInParticipant. exec.
    destruct (ParticipantModel.byPk _ (participants db)) as [p|]; [|reflexivity].
    destruct (EventModel.byPk _ (events db)); [|reflexivity].
    destruct (access_denied _ _); [reflexivity|].
    destruct (truthy _); [reflexivity|].
    cbn. intros H. elim H; reflexivity.
  - unfold bulkCheckIn. exec.
    destruct (negb (truthy (get (body req) "participantIds"))
              || negb (isArray (get (body req) "participantIds"))); [reflexivity|].
    destruct (List.filter _ (participants db)) as [|first rest]; [reflexivity|].
    destruct (EventModel.byPk (get first "eventId") (events db)); [|reflexivity].
    destruct (access_denied _ _); [reflexivity|].
    rewrite checkIn_each_run. cbn. intros H. elim H; reflexivity.
Qed.

Lemma failed_requests_change_nothing_witness :
  snd (registerParticipant Sample.env Sample.forged_to_open
         (snd (registerParticipant Sample.env Sample.dan_to_open Sample.db)))
  = snd (registerParticipant Sample.env Sample.dan_to_open Sample.db)
  /\ snd (updateParticipant Sample.env Sample.mallory_p1 Sample.db) = Sample.db
  /\ snd (deleteParticipant Sample.env Sample.alice_p5 Sample.db) = Sample.db
  /\ snd (checkInParticipant Sample.env Scenario.unknown_p9 Sample.db) = Sample.db
  /\ snd (bulkCheckIn Sample.env Scenario.bulk_empty Sample.db) = Sample.db.
Proof.
  split; [|split; [|split; [|split]]].
  - apply (proj1 (failed_requests_change_nothing Sample.env Sample.forged_to_open
             (snd (registerParticipant Sample.env Sample.dan_to_open Sample.db))));
      vm_compute; discriminate.
  - apply (proj1 (proj2 (failed_requests_change_nothing Sample.env Sample.mallory_p1
             Sample.db))); vm_compute; discriminate.
  - apply (proj1 (proj2 (proj2 (failed_requests_change_nothing Sample.env Sample.alice_p5
             Sample.db)))); vm_compute; discriminate.
  - apply (proj1 (proj2 (proj2 (proj2 (failed_requests_change_nothing Sample.env
             Scenario.unknown_p9 Sample.db))))); vm_compute; discriminate.
  - apply (proj2 (proj2 (proj2 (proj2 (failed_requests_change_nothing Sample.env
             Scenario.bulk_empty Sample.db))))); vm_compute; discriminate.
Defined.

(** ** Update *)

Lemma get_union_absent (b row : obj) (k : string) :
  b !! k = None -> get (b ∪ row) k = get row k.
Proof. intros H. unfold get. rewrite lookup_union_r by exact H. reflexivity. Qed.

Lemma get_union_present (b row : obj) (k : string) (v : value) :
  b !! k = Some v -> get (b ∪ row) k = v.
Proof. intros H. unfold get. erewrite lookup_union_Some_l by exact H. reflexivity. Qed.

(** Looking a participant up after the columns [b], which leave the id
    alone, were written to the row with id [k']. *)
Lemma byPk_after_write (k k' : value) (b : obj) (rows : list obj) (p : obj) :
  b !! "id" = None ->
  ParticipantModel.byPk k rows = Some p ->
  ParticipantModel.byPk k (List.map (fun row =>
      if ParticipantModel.has_id k' row then b ∪ row else row) rows)
  = Some (if ParticipantModel.has_id k' p then b ∪ p else p).
Proof.
  intros Hb Hp. unfold ParticipantModel.byPk in *.
  rewrite find_map_preserved, Hp; [reflexivity|].
  intros row. destruct (ParticipantModel.has_id k' row); [|reflexivity].
  unfold ParticipantModel.has_id. rewrite get_union_absent by exact Hb. reflexivity.
Qed.

Lemma update_run (env : Env) (req : Request) (db : Db) (p : obj) (ev : Event) :
  ParticipantModel.byPk (get (params req) "id") (participants db) = Some p ->
  EventModel.byPk (get p "eventId") (events db) = Some ev ->
  authorized ev (user req) ->
  updateParticipant env req db
  = (res 200 (BParticipant (delete "id" (body req) ∪ p) None),
     set_participants (List.map (fun row =>
       if ParticipantModel.has_id (get p "id") row
       then delete "id" (body req) ∪ row else row)) db).
Proof.
  intros Hp Hev Hauth. unfold updateParticipant. exec.
  rewrite Hp, Hev, (access_denied_false _ _ Hauth). reflexivity.
Qed.

Lemma get_by_id_run (env : Env) (req : Request) (db : Db) (p : obj) (ev : Event) :
  ParticipantModel.byPk (get (params req) "id") (participants db) = Some p ->
  EventModel.byPk (get p "eventId") (events db) = Some ev ->
  authorized ev (user req) ->
  getParticipantById env req db
  = (res 200 (BParticipantWithEvent p (Some (event_id ev, name ev, date ev, venue ev))),
     db).
Proof.
  intros Hp Hev Hauth. unfold getParticipantById. exec.
  rewrite Hp, Hev, (access_denied_false _ _ Hauth). reflexivity.
Qed.

(** X8: an authorized update stores every column the body names except
    id, whatever the column (ticketNumber, status and checkedIn included),
    keeps the id and the columns the body does not name, and does not touch
    the events; the stored row is what the id then names.  When the body does
    not name eventId, a later authorized get-by-id of the same id returns
    exactly the updated participant, with the id, name, date and venue of its
    event. *)
Theorem update_then_get (env : Env) (req : Request) (db : Db) (p : obj) (ev : Event) :
  ParticipantModel.byPk (get (params req) "id") (participants db) = Some p ->
  EventModel.byPk (get p "eventId") (events db) = Some ev ->
  authorized ev (user req) ->
  exists p' db',
    updateParticipant env req db = (res 200 (BParticipant p' None), db')
    /\ p' !! "id" = p !! "id"
    /\ (forall k v, k <> "id" -> body req !! k = Some v -> p' !! k = Some v)
    /\ (forall k, body req !! k = None -> p' !! k = p !! k)
    /\ ParticipantModel.byPk (get (params req) "id") (participants db') = Some p'
    /\ events db' = events db
    /\ (forall env2 req2,
          body req !! "eventId" = None ->
          get (params req2) "id" = get (params req) "id" ->
          authorized ev (user req2) ->
          getParticipantById env2 req2 db'
          = (res 200 (BParticipantWithEvent p'
                        (Some (event_id ev, name ev, date ev, venue ev))), db')).
Proof.
  intros Hp Hev Hauth.
  assert (Hnoid : delete "id" (body req) !! "id" = None) by apply lookup_delete_eq.
  assert (Hp' : ParticipantModel.byPk (get (params req) "id")
                  (List.map (fun row =>
                     if ParticipantModel.has_id (get p "id") row
                     then delete "id" (body req) ∪ row else row) (participants db))
                = Some (delete "id" (body req) ∪ p)).
  { rewrite (byPk_after_write _ _ _ _ _ Hnoid Hp), has_id_self. reflexivity. }
  exists (delete "id" (body req) ∪ p),
    (set_participants (List.map (fun row =>
       if ParticipantModel.has_id (get p "id") row
       then delete "id" (body req) ∪ row else row)) db).
  split; [apply (update_run env req db p ev Hp Hev Hauth)|].
  split; [apply lookup_union_r, Hnoid|].
  split.
  { intros k v Hk Hv. apply lookup_union_Some_l.
    rewrite lookup_delete_ne by congruence. exact Hv. }
  split.
  { intros k Hk. apply lookup_union_r.
    destruct (decide (k = "id")) as [->|Hne]; [exact Hnoid|].
    rewrite lookup_delete_ne by congruence. exact Hk. }
  split; [exact Hp'|]. split; [reflexivity|].
  intros env2 req2 Heid Hsame Hauth2. apply get_by_id_run.
  - cbn [participants set_participants]. rewrite Hsame. exact Hp'.
  - cbn [events set_participants]. rewrite get_union_absent; [exact Hev|].
    rewrite lookup_delete_ne by discriminate. exact Heid.
  - exact Hauth2.
Qed.

Lemma update_then_get_witness :
  exists p' db',
    updateParticipant Sample.env Scenario.rename_p1 Sample.db = (res 200 (BParticipant p' None),
        db')
    /\ p' !! "id" = Sample.p1 !! "id"
    /\ (forall k v, k <> "id" -> body Scenario.rename_p1 !! k = Some v -> p' !! k = Some v)
    /\ (forall k, body Scenario.rename_p1 !! k = None -> p' !! k = Sample.p1 !! k)
    /\ ParticipantModel.byPk (get (params Scenario.rename_p1) "id") (participants db') = Some p'
    /\ events db' = events Sample.db
    /\ (forall env2 req2,
          body Scenario.rename_p1 !! "eventId" = None ->
          get (params req2) "id" = get (params Scenario.rename_p1) "id" ->
          authorized Sample.open_event (user req2) ->
          getParticipantById env2 req2 db'
          = (res 200 (BParticipantWithEvent p'
                        (Some (event_id Sample.open_event, name Sample.open_event, date
                            Sample.open_event, venue Sample.open_event))), db')).
Proof.
  apply (update_then_get Sample.env Scenario.rename_p1 Sample.db Sample.p1 Sample.open_event).
  - vm_compute; reflexivity.
  - vm_compute; reflexivity.
  - left; reflexivity.
Defined.

(** On the sample data an update whose body names another id renames the
    participant and leaves its key alone. *)
Example update_keeps_id_sample :
  (fun p => (get p "id", get p "firstName")) <$>
    ParticipantModel.byPk (VStr "p1")
      (participants (snd (updateParticipant Sample.env Scenario.rekey_p1 Sample.db)))
  = Some (VStr "p1", VStr "Augusta")
  /\ ParticipantModel.byPk (VStr "p9")
       (participants (snd (updateParticipant Sample.env Scenario.rekey_p1 Sample.db)))
     = None.
Proof. split; vm_compute; reflexivity. Qed.

(** ** Check-in *)

Lemma checkInValues_id (t m : value) : checkInValues t m !! "id" = None.
Proof.
  unfold checkInValues. rewrite !lookup_insert_ne by discriminate.
  apply lookup_singleton_ne. discriminate.
Qed.

Lemma checkIn_run (env : Env) (req : Request) (db : Db) (p : obj) (ev : Event) :
  ParticipantModel.byPk (get (params req) "id") (participants db) = Some p ->
  EventModel.byPk (get p "eventId") (events db) = Some ev ->
  authorized ev (user req) ->
  checked_in p = false ->
  checkInParticipant env req db
  = (res 200 (BParticipant (check_in (now env) (method_of req) p)
               (Some "Check-in successful")),
     set_events (List.map (fun e =>
         if String.eqb (event_id e) (event_id ev)
         then EventModel.add EventModel.TotalAttendees 1 e else e))
       (set_participants (List.map (fun row =>
          if ParticipantModel.has_id (get p "id") row
          then check_in (now env) (method_of req) row else row)) db)).
Proof.
  intros Hp Hev Hauth Hc. unfold checkInParticipant. exec.
  rewrite Hp, Hev, (access_denied_false _ _ Hauth).
  unfold checked_in in Hc. rewrite Hc. reflexivity.
Qed.

Lemma authorized_add (c : EventModel.counter) (n : Z) (e : Event) (u : User) :
  authorized e u -> authorized (EventModel.add c n e) u.
Proof. destruct c; exact (fun H => H). Qed.

(** X9: the attendee counter can count one participant twice.  After a
    check-in, an authorized update whose body sets checkedIn to a falsy value
    (and names neither id nor eventId) makes a further check-in of the same
    participant succeed, and the three requests leave totalAttendees of the
    event 2 above where it was. *)
Theorem checkin_counts_again_after_reset
    (env1 env2 env3 : Env) (req1 req2 req3 : Request) (db : Db) (p : obj) (ev : Event)
    (v : value) :
  ParticipantModel.byPk (get (params req1) "id") (participants db) = Some p ->
  EventModel.byPk (get p "eventId") (events db) = Some ev ->
  checked_in p = false ->
  authorized ev (user req1) ->
  authorized ev (user req2) ->
  authorized ev (user req3) ->
  get (params req2) "id" = get (params req1) "id" ->
  get (params req3) "id" = get (params req1) "id" ->
  body req2 !! "checkedIn" = Some v ->
  truthy v = false ->
  body req2 !! "id" = None ->
  body req2 !! "eventId" = None ->
  exists p1 p2 p3 db1 db2 db3 ev3,
    checkInParticipant env1 req1 db
      = (res 200 (BParticipant p1 (Some "Check-in successful")), db1)
    /\ updateParticipant env2 req2 db1 = (res 200 (BParticipant p2 None), db2)
    /\ checkInParticipant env3 req3 db2
      = (res 200 (BParticipant p3 (Some "Check-in successful")), db3)
    /\ EventModel.byPk (get p "eventId") (events db3) = Some ev3
    /\ totalAttendees ev3 = totalAttendees ev + 2.
Proof.
  intros Hp Hev Hc Ha1 Ha2 Ha3 Hid2 Hid3 Hv Hfalsy Hbid Hbev.
  pose proof (checkIn_run env1 req1 db p ev Hp Hev Ha1 Hc) as Hrun1.
  set (db1 := snd (checkInParticipant env1 req1 db)).
  set (p1 := check_in (now env1) (method_of req1) p).
  set (ev1 := EventModel.add EventModel.TotalAttendees 1 ev).
  assert (Hp1 : ParticipantModel.byPk (get (params req1) "id") (participants db1) = Some p1).
  { unfold db1. rewrite Hrun1. cbn [snd participants set_events set_participants].
    unfold check_in.
    rewrite (byPk_after_write _ _ _ _ _ (checkInValues_id _ _) Hp), has_id_self.
    reflexivity. }
  assert (Hp1ev : get p1 "eventId" = get p "eventId").
  { unfold p1, check_in. apply get_checkInValues_other; discriminate. }
  assert (Hp1id : get p1 "id" = get p "id").
  { unfold p1, check_in. apply get_checkInValues_other; discriminate. }
  assert (Hev1 : EventModel.byPk (get p "eventId") (events db1) = Some ev1).
  { unfold db1. rewrite Hrun1. cbn [snd events set_events set_participants].
    rewrite (byPk_after_increment _ _ _ _ _ _ Hev), String.eqb_refl. reflexivity. }
  assert (Hrun2 := update_run env2 req2 db1 p1 ev1).
  rewrite Hid2, Hp1ev in Hrun2.
  specialize (Hrun2 Hp1 Hev1 (authorized_add _ _ _ _ Ha2)).
  rewrite (delete_id _ _ Hbid) in Hrun2.
  set (db2 := snd (updateParticipant env2 req2 db1)).
  set (p2 := body req2 ∪ p1).
  assert (Hp2 : ParticipantModel.byPk (get (params req1) "id") (participants db2) = Some p2).
  { unfold db2. rewrite Hrun2. cbn [snd participants set_participants].
    rewrite (byPk_after_write _ _ _ _ _ Hbid Hp1), has_id_self. reflexivity. }
  assert (Hp2ev : get p2 "eventId" = get p "eventId").
  { unfold p2. rewrite get_union_absent by exact Hbev. exact Hp1ev. }
  assert (Hev2 : EventModel.byPk (get p "eventId") (events db2) = Some ev1).
  { unfold db2. rewrite Hrun2. cbn [snd events set_participants]. exact Hev1. }
  assert (Hc2 : checked_in p2 = false).
  { unfold checked_in, p2. rewrite (get_union_present _ _ _ _ Hv). exact Hfalsy. }
  assert (Hrun3 := checkIn_run env3 req3 db2 p2 ev1).
  rewrite Hid3, Hp2ev in Hrun3.
  specialize (Hrun3 Hp2 Hev2 (authorized_add _ _ _ _ Ha3) Hc2).
  exists p1, p2, (check_in (now env3) (method_of req3) p2), db1, db2,
    (snd (checkInParticipant env3 req3 db2)),
    (EventModel.add EventModel.TotalAttendees 1 ev1).
  split; [unfold db1; rewrite Hrun1; reflexivity|].
  split; [unfold db2; rewrite Hrun2; reflexivity|].
  split; [rewrite Hrun3; reflexivity|].
  split.
  - rewrite Hrun3. cbn [snd events set_events set_participants].
    rewrite (byPk_after_increment _ _ _ _ _ _ Hev2), String.eqb_refl. reflexivity.
  - cbn [ev1 EventModel.add totalAttendees]. lia.
Qed.

Lemma checkin_counts_again_after_reset_witness :
  exists p1 p2 p3 db1 db2 db3 ev3,
    checkInParticipant Sample.env Sample.alice_p1 Sample.db
      = (res 200 (BParticipant p1 (Some "Check-in successful")), db1)
    /\ updateParticipant Sample.env Scenario.reset_p1 db1 = (res 200 (BParticipant p2 None), db2)
    /\ checkInParticipant Sample.env Sample.alice_p1_again db2
      = (res 200 (BParticipant p3 (Some "Check-in successful")), db3)
    /\ EventModel.byPk (get Sample.p1 "eventId") (events db3) = Some ev3
    /\ totalAttendees ev3 = totalAttendees Sample.open_event + 2.
Proof.
  apply (checkin_counts_again_after_reset Sample.env Sample.env Sample.env Sample.alice_p1
      Scenario.reset_p1 Sample.alice_p1_again Sample.db Sample.p1 Sample.open_event (VBool false)).
  - vm_compute; reflexivity.
  - vm_compute; reflexivity.
  - vm_compute; reflexivity.
  - left; reflexivity.
  - left; reflexivity.
  - left; reflexivity.
  - vm_compute; reflexivity.
  - vm_compute; reflexivity.
  - vm_compute; reflexivity.
  - reflexivity.
  - vm_compute; reflexivity.
  - vm_compute; reflexivity.
Defined.

(** ** Bulk check-in *)

(** X10: the bulk check-in rejects its input before it looks at the caller:
    a participantIds that is missing or not an array is answered 400
    'participantIds must be an array'; an array that names no participant,
    the empty array included, is answered 404 'No participants found'.
    Neither changes the state. *)
Theorem bulk_checkin_rejects (env : Env) (req : Request) (db : Db) :
  (isArray (get (body req) "participantIds") = false ->
   bulkCheckIn env req db = (res 400 (BError "participantIds must be an array"), db))
  /\ (forall ids,
        get (body req) "participantIds" = VArr ids ->
        (forall row, In row (participants db) -> ~ In (get row "id") ids) ->
        bulkCheckIn env req db = (res 404 (BError "No participants found"), db))
  /\ (get (body req) "participantIds" = VArr [] ->
      bulkCheckIn env req db = (res 404 (BError "No participants found"), db)).
Proof.
  assert (Hnone : forall ids,
            get (body req) "participantIds" = VArr ids ->
            (forall row, In row (participants db) -> ~ In (get row "id") ids) ->
            bulkCheckIn env req db = (res 404 (BError "No participants found"), db)).
  { intros ids Hids Hno. unfold bulkCheckIn. exec. rewrite Hids.
    cbn [truthy isArray negb orb elements_of].
    replace (List.filter (ParticipantModel.id_in ids) (participants db)) with (@nil obj);
      [reflexivity|].
    symmetry. induction (participants db) as [|row rows IH]; [reflexivity|].
    cbn [List.filter]. unfold ParticipantModel.id_in at 1.
    rewrite bool_decide_eq_false_2.
    - apply IH. intros r Hr. apply Hno. right. exact Hr.
    - rewrite list_elem_of_In. apply Hno. left. reflexivity. }
  split; [|split].
  - intros Hnot. unfold bulkCheckIn. exec. rewrite Hnot.
    rewrite Bool.orb_true_r. reflexivity.
  - exact Hnone.
  - intros Hids. apply (Hnone [] Hids). intros row _ [].
Qed.

Lemma bulk_checkin_rejects_witness :
  bulkCheckIn Sample.env Scenario.bulk_none Sample.db
    = (res 400 (BError "participantIds must be an array"), Sample.db)
  /\ bulkCheckIn Sample.env Scenario.bulk_unknown Sample.db
    = (res 404 (BError "No participants found"), Sample.db)
  /\ bulkCheckIn Sample.env Scenario.bulk_empty Sample.db
    = (res 404 (BError "No participants found"), Sample.db).
Proof.
  split; [|split].
  - apply (proj1 (bulk_checkin_rejects Sample.env Scenario.bulk_none Sample.db)).
    vm_compute; reflexivity.
  - apply (proj1 (proj2 (bulk_checkin_rejects Sample.env Scenario.bulk_unknown Sample.db))
             [VStr "p9"]); [vm_compute; reflexivity|].
    intros row Hrow.
    repeat (destruct Hrow as [<-|Hrow]; [vm_compute; intros [H|[]]; discriminate|]).
    destruct Hrow.
  - apply (proj2 (proj2 (bulk_checkin_rejects Sample.env Scenario.bulk_empty Sample.db))).
    vm_compute; reflexivity.
Defined.

Lemma add_zero (c : EventModel.counter) (e : Event) : EventModel.add c 0 e = e.
Proof. destruct c, e; cbn; rewrite Z.add_0_r; reflexivity. Qed.

Lemma checkIn_updated_none (env : Env) (m : value) (ps : list obj) (k : nat) :
  (forall p, In p ps -> checked_in p = true) -> checkIn_updated env m ps k = [].
Proof.
  intros Hall. induction ps as [|p ps IH]; [reflexivity|].
  cbn [checkIn_updated]. rewrite (Hall p) by (left; reflexivity).
  apply IH. intros q Hq. apply Hall. right. exact Hq.
Qed.

Lemma touched_none (ps : list obj) (row : obj) :
  (forall p, In p ps -> checked_in p = true) -> touched ps row = false.
Proof.
  intros Hall. unfold touched. induction ps as [|p ps IH]; [reflexivity|].
  cbn [existsb]. rewrite (Hall p) by (left; reflexivity). cbn [negb andb orb].
  apply IH. intros q Hq. apply Hall. right. exact Hq.
Qed.

Lemma filter_none {A} (f : A -> bool) (l : list A) :
  (forall x, In x l -> f x = false) -> List.filter f l = [].
Proof.
  induction l as [|a l IH]; intros H; [reflexivity|].
  cbn [List.filter]. rewrite (H a) by (left; reflexivity).
  apply IH. intros x Hx. apply H. right. exact Hx.
Qed.

(** A bulk check-in that finds every fetched participant checked in. *)
Lemma bulk_nothing_to_do (env : Env) (req : Request) (db : Db)
    (ids : list value) (first : obj) (rest : list obj) (ev : Event) :
  get (body req) "participantIds" = VArr ids ->
  matching ids db = first :: rest ->
  (forall p, In p (matching ids db) -> checked_in p = true) ->
  EventModel.byPk (get first "eventId") (events db) = Some ev ->
  authorized ev (user req) ->
  bulkCheckIn env req db = (res 200 (BBulk "0 participants checked in" []), db).
Proof.
  intros Hids Hfetch Hall Hev Hauth.
  unfold bulkCheckIn. exec. rewrite Hids. cbn [truthy isArray negb orb elements_of].
  fold (matching ids db). rewrite Hfetch, Hev, (access_denied_false _ _ Hauth).
  rewrite <- Hfetch, checkIn_each_run.
  rewrite (checkIn_updated_none _ _ _ _ Hall).
  cbn [List.map app length Z.of_nat]. f_equal.
  destruct db as [evs rows q]. unfold set_events, set_participants.
  cbn [events participants emailQueue]. f_equal.
  - rewrite <- (List.map_id evs) at 2. apply List.map_ext. intros e.
    rewrite add_zero. destruct (String.eqb _ _); reflexivity.
  - transitivity (List.map (fun row : obj => row) rows); [|apply List.map_id].
    apply List.map_ext. intros row. unfold checkIn_row.
    pose proof (checkIn_stamp_cases (matching ids (Build_Db evs rows q)) 0 row) as Hst.
    rewrite (touched_none _ _ Hall) in Hst.
    destruct (checkIn_stamp _ 0 row); [destruct Hst; discriminate | reflexivity].
Qed.

(** X11: a bulk check-in by an authorized caller over participants that are
    all checked in already (K = N) is no error: it is answered 200 with the message
    '0 participants checked in' and an empty list, and leaves the state
    exactly as it was. *)
Theorem bulk_checkin_all_checked_in (env : Env) (req : Request) (db : Db)
    (ids : list value) (first : obj) (rest : list obj) (ev : Event) :
  get (body req) "participantIds" = VArr ids ->
  matching ids db = first :: rest ->
  already_checked_in ids db = length (matching ids db) ->
  EventModel.byPk (get first "eventId") (events db) = Some ev ->
  authorized ev (user req) ->
  bulkCheckIn env req db = (res 200 (BBulk "0 participants checked in" []), db).
Proof.
  intros Hids Hfetch Hall Hev Hauth.
  apply (bulk_nothing_to_do env req db ids first rest ev); try assumption.
  apply List.filter_length_forallb in Hall.
  intros p Hp. exact (proj1 (List.forallb_forall _ _) Hall p Hp).
Qed.

Lemma bulk_checkin_all_checked_in_witness :
  bulkCheckIn Sample.env Scenario.bulk_p2 Sample.db = (res 200 (BBulk "0 participants checked in"
      []), Sample.db).
Proof.
  apply (bulk_checkin_all_checked_in Sample.env Scenario.bulk_p2 Sample.db [VStr "p2"] Sample.p2
      [] Sample.open_event).
  - vm_compute; reflexivity.
  - vm_compute; reflexivity.
  - vm_compute; reflexivity.
  - vm_compute; reflexivity.
  - left; reflexivity.
Defined.

Lemma id_in_check_in (t m : value) (ids : list value) (row : obj) :
  ParticipantModel.id_in ids (check_in t m row) = ParticipantModel.id_in ids row.
Proof.
  unfold ParticipantModel.id_in, check_in.
  rewrite get_checkInValues_other by discriminate. reflexivity.
Qed.

Lemma checked_in_check_in (t m : value) (row : obj) :
  checked_in (check_in t m row) = true.
Proof.
  unfold checked_in, check_in.
  destruct (get_checkInValues t m row) as [-> _]. reflexivity.
Qed.

Lemma touched_self (ps : list obj) (p : obj) :
  In p ps -> touched ps p = false -> checked_in p = true.
Proof.
  intros Hin Hno. unfold touched in Hno.
  destruct (checked_in p) eqn:Hc; [reflexivity|].
  assert (existsb (fun q => negb (checked_in q)
                            && ParticipantModel.has_id (get q "id") p) ps = true)
    as Hyes; [|rewrite Hyes in Hno; discriminate].
  apply List.existsb_exists. exists p. split; [exact Hin|].
  rewrite Hc, has_id_self. reflexivity.
Qed.

(** The run of a bulk check-in that passes its checks. *)
Lemma bulk_run (env : Env) (req : Request) (db : Db)
    (ids : list value) (first : obj) (rest : list obj) (ev : Event) :
  get (body req) "participantIds" = VArr ids ->
  matching ids db = first :: rest ->
  EventModel.byPk (get first "eventId") (events db) = Some ev ->
  authorized ev (user req) ->
  bulkCheckIn env req db
  = (res 200
       (BBulk (pretty (length (checkIn_updated env (method_of req) (matching ids db) 0))
               +:+ " participants checked in")
          (checkIn_updated env (method_of req) (matching ids db) 0)),
     set_events (List.map (fun e =>
         if String.eqb (event_id e) (event_id ev)
         then EventModel.add EventModel.TotalAttendees
                (Z.of_nat (length (checkIn_updated env (method_of req)
                                     (matching ids db) 0))) e
         else e))
       (set_participants
          (List.map (checkIn_row env (method_of req) (matching ids db) 0)) db)).
Proof.
  intros Hids Hfetch Hev Hauth.
  unfold bulkCheckIn. exec. fold (method_of req). rewrite Hids.
  cbn [truthy isArray negb orb elements_of].
  fold (matching ids db). rewrite Hfetch, Hev, (access_denied_false _ _ Hauth).
  rewrite <- Hfetch, checkIn_each_run. reflexivity.
Qed.

(** X12: the bulk check-in is idempotent.  After a bulk check-in by an
    authorized caller was answered 200, the same list of ids sent again, by
    any authorized caller, is answered 200 with '0 participants checked in'
    and an empty list, and changes nothing: no participant is checked in
    twice and totalAttendees is not raised again. *)
Theorem bulk_checkin_idempotent (env env2 : Env) (req req2 : Request) (db : Db)
    (ids : list value) (first : obj) (rest : list obj) (ev : Event) :
  get (body req) "participantIds" = VArr ids ->
  matching ids db = first :: rest ->
  EventModel.byPk (get first "eventId") (events db) = Some ev ->
  authorized ev (user req) ->
  get (body req2) "participantIds" = VArr ids ->
  authorized ev (user req2) ->
  code (fst (bulkCheckIn env req db)) = 200
  /\ bulkCheckIn env2 req2 (snd (bulkCheckIn env req db))
     = (res 200 (BBulk "0 participants checked in" []), snd (bulkCheckIn env req db)).
Proof.
  intros Hids Hfetch Hev Hauth Hids2 Hauth2.
  rewrite (bulk_run env req db ids first rest ev Hids Hfetch Hev Hauth).
  split; [reflexivity|]. cbn [snd].
  set (f := checkIn_row env (method_of req) (matching ids db) 0).
  assert (Hf : forall row, f row = row \/ exists t, f row = check_in t (method_of req) row).
  { intros row. unfold f, checkIn_row.
    destruct (checkIn_stamp (matching ids db) 0 row); eauto. }
  assert (Hmatch : forall db1, participants db1 = List.map f (participants db) ->
                     matching ids db1 = List.map f (matching ids db)).
  { intros db1 Hrows. unfold matching. rewrite Hrows, List.filter_map_swap.
    f_equal. apply List.filter_ext. intros row.
    destruct (Hf row) as [->|[t ->]]; [reflexivity | apply id_in_check_in]. }
  match goal with |- bulkCheckIn _ _ ?d = _ => set (db1 := d) end.
  assert (Hm1 : matching ids db1 = List.map f (matching ids db))
    by (apply Hmatch; reflexivity).
  apply (bulk_nothing_to_do env2 req2 db1 ids (f first) (List.map f rest)
           (EventModel.add EventModel.TotalAttendees
              (Z.of_nat (length (checkIn_updated env (method_of req)
                                   (matching ids db) 0))) ev)).
  - exact Hids2.
  - rewrite Hm1, Hfetch. reflexivity.
  - intros p Hp. rewrite Hm1 in Hp.
    apply List.in_map_iff in Hp as (row & <- & Hrow). unfold f, checkIn_row.
    pose proof (checkIn_stamp_cases (matching ids db) 0 row) as Hst.
    destruct (checkIn_stamp (matching ids db) 0 row);
      [apply checked_in_check_in | apply (touched_self _ _ Hrow Hst)].
  - unfold db1. cbn [events set_events set_participants].
    assert (get (f first) "eventId" = get first "eventId") as ->.
    { destruct (Hf first) as [->|[t ->]]; [reflexivity|].
      unfold check_in. apply get_checkInValues_other; discriminate. }
    rewrite (byPk_after_increment _ _ _ _ _ _ Hev), String.eqb_refl. reflexivity.
  - apply authorized_add, Hauth2.
Qed.

Lemma bulk_checkin_idempotent_witness :
  code (fst (bulkCheckIn Sample.env Sample.alice_bulk Sample.db)) = 200
  /\ bulkCheckIn Sample.env Sample.alice_bulk (snd (bulkCheckIn Sample.env Sample.alice_bulk
      Sample.db))
     = (res 200 (BBulk "0 participants checked in" []), snd (bulkCheckIn Sample.env
         Sample.alice_bulk Sample.db)).
Proof.
  apply (bulk_checkin_idempotent Sample.env Sample.env Sample.alice_bulk Sample.alice_bulk
      Sample.db Sample.ids Sample.p1 [Sample.p2] Sample.open_event).
  - vm_compute; reflexivity.
  - vm_compute; reflexivity.
  - vm_compute; reflexivity.
  - left; reflexivity.
  - vm_compute; reflexivity.
  - left; reflexivity.
Defined.

Lemma matching_single (k : value) (rows : list obj) (p : obj) :
  NoDup (List.map (fun row => get row "id") rows) ->
  ParticipantModel.byPk k rows = Some p ->
  List.filter (ParticipantModel.id_in [k]) rows = [p].
Proof.
  induction rows as [|a rows IH]; [discriminate|].
  cbn [List.map]. intros Hnd Hp. apply NoDup_cons in Hnd as [Hnotin Hnd].
  unfold ParticipantModel.byPk in Hp. cbn [List.find List.filter] in *.
  unfold ParticipantModel.id_in at 1. unfold ParticipantModel.has_id at 1 in Hp.
  destruct (decide (get a "id" = k)) as [Hk|Hk].
  - rewrite bool_decide_eq_true_2 in Hp by exact Hk. injection Hp as ->.
    rewrite bool_decide_eq_true_2 by (apply list_elem_of_singleton, Hk).
    f_equal. apply filter_none. intros row Hrow.
    apply bool_decide_eq_false_2. rewrite list_elem_of_singleton. intros Hrk.
    apply Hnotin. rewrite Hk, <- Hrk.
    apply list_elem_of_In, (List.in_map (fun row => get row "id")), Hrow.
  - rewrite bool_decide_eq_false_2 in Hp by exact Hk.
    rewrite bool_decide_eq_false_2 by (rewrite list_elem_of_singleton; exact Hk).
    apply IH; assumption.
Qed.

(** X13: a bulk check-in of one participant does what the single check-in
    does.  In a table with distinct ids, for a participant not yet checked in
    and the same check-in method and clock, the bulk request over its id
    alone returns in its list the participant the single request returns,
    and leaves exactly the same state. *)
Theorem bulk_of_one_is_single (env : Env) (req_single req_bulk : Request) (db : Db)
    (p : obj) (ev : Event) :
  NoDup (List.map (fun row => get row "id") (participants db)) ->
  ParticipantModel.byPk (get (params req_single) "id") (participants db) = Some p ->
  checked_in p = false ->
  EventModel.byPk (get p "eventId") (events db) = Some ev ->
  authorized ev (user req_single) ->
  authorized ev (user req_bulk) ->
  get (body req_bulk) "participantIds" = VArr [get (params req_single) "id"] ->
  method_of req_bulk = method_of req_single ->
  exists p',
    checkInParticipant env req_single db
      = (res 200 (BParticipant p' (Some "Check-in successful")),
         snd (checkInParticipant env req_single db))
    /\ bulkCheckIn env req_bulk db
      = (res 200 (BBulk "1 participants checked in" [p']),
         snd (checkInParticipant env req_single db)).
Proof.
  intros Hnd Hp Hc Hev Ha Hab Hids Hm.
  pose proof (matching_single _ _ _ Hnd Hp) as Hfetch.
  fold (matching [get (params req_single) "id"] db) in Hfetch.
  exists (check_in (now env) (method_of req_single) p).
  rewrite (checkIn_run env req_single db p ev Hp Hev Ha Hc).
  split; [reflexivity|]. cbn [snd].
  rewrite (bulk_run env req_bulk db _ p [] ev Hids Hfetch Hev Hab).
  rewrite Hfetch, Hm. cbn [checkIn_updated]. rewrite Hc.
  cbn [length Z.of_nat Pos.of_succ_nat]. f_equal.
  unfold set_participants. f_equal. f_equal. apply List.map_ext. intros row.
  unfold checkIn_row. cbn [checkIn_stamp]. rewrite Hc.
  destruct (ParticipantModel.has_id (get p "id") row); reflexivity.
Qed.

Lemma bulk_of_one_is_single_witness :
  exists p',
    checkInParticipant Sample.env Sample.alice_p1 Sample.db
      = (res 200 (BParticipant p' (Some "Check-in successful")),
         snd (checkInParticipant Sample.env Sample.alice_p1 Sample.db))
    /\ bulkCheckIn Sample.env Scenario.bulk_p1 Sample.db
      = (res 200 (BBulk "1 participants checked in" [p']),
         snd (checkInParticipant Sample.env Sample.alice_p1 Sample.db)).
Proof.
  apply (bulk_of_one_is_single Sample.env Sample.alice_p1 Scenario.bulk_p1 Sample.db Sample.p1
      Sample.open_event).
  - refine (bool_decide_unpack _ _); vm_compute; exact I.
  - vm_compute; reflexivity.
  - vm_compute; reflexivity.
  - vm_compute; reflexivity.
  - left; reflexivity.
  - left; reflexivity.
  - vm_compute; reflexivity.
  - vm_compute; reflexivity.
Defined.

(** ** Deletion *)

Lemma delete_run (env : Env) (req : Request) (db : Db) (p : obj) (ev : Event) :
  ParticipantModel.byPk (get (params req) "id") (participants db) = Some p ->
  EventModel.byPk (get p "eventId") (events db) = Some ev ->
  authorized ev (user req) ->
  deleteParticipant env req db
  = (res 200 (BMessage "Participant deleted successfully"),
     set_events (List.map (fun e =>
         if String.eqb (event_id e) (event_id ev)
         then EventModel.add EventModel.TotalRegistrations (-1) e else e))
       (set_participants (List.filter (fun row =>
          negb (ParticipantModel.has_id (get p "id") row))) db)).
Proof.
  intros Hp Hev Hauth. unfold deleteParticipant. exec.
  rewrite Hp, Hev, (access_denied_false _ _ Hauth). reflexivity.
Qed.

(** X14: a delete is not repeated.  After an authorized delete, a second
    delete of the same id, by any caller, is answered 404 'Participant not
    found' and changes nothing, so totalRegistrations is lowered once. *)
Theorem delete_twice (env env2 : Env) (req req2 : Request) (db : Db) (p : obj) (ev : Event) :
  ParticipantModel.byPk (get (params req) "id") (participants db) = Some p ->
  EventModel.byPk (get p "eventId") (events db) = Some ev ->
  authorized ev (user req) ->
  get (params req2) "id" = get (params req) "id" ->
  fst (deleteParticipant env req db) = res 200 (BMessage "Participant deleted successfully")
  /\ deleteParticipant env2 req2 (snd (deleteParticipant env req db))
     = (ParticipantNotFound, snd (deleteParticipant env req db)).
Proof.
  intros Hp Hev Hauth Hsame.
  rewrite (delete_run env req db p ev Hp Hev Hauth). split; [reflexivity|].
  cbn [snd]. unfold deleteParticipant. exec.
  cbn [participants set_events set_participants].
  rewrite Hsame, (has_id_found _ _ _ Hp), byPk_after_destroy. reflexivity.
Qed.

Lemma delete_twice_witness :
  fst (deleteParticipant Sample.env Sample.alice_p1 Sample.db) = res 200 (BMessage
      "Participant deleted successfully")
  /\ deleteParticipant Sample.env Sample.mallory_p1 (snd (deleteParticipant Sample.env
      Sample.alice_p1 Sample.db))
     = (ParticipantNotFound, snd (deleteParticipant Sample.env Sample.alice_p1 Sample.db)).
Proof.
  apply (delete_twice Sample.env Sample.env Sample.alice_p1 Sample.mallory_p1 Sample.db Sample.p1
      Sample.open_event).
  - vm_compute; reflexivity.
  - vm_compute; reflexivity.
  - left; reflexivity.
  - vm_compute; reflexivity.
Defined.

Lemma sub_add_one (e : Event) :
  EventModel.add EventModel.TotalRegistrations (-1)
    (EventModel.add EventModel.TotalRegistrations 1 e) = e.
Proof.
  destruct e. cbn. f_equal. lia.
Qed.

Lemma find_app_last {A} (f : A -> bool) (l : list A) (x : A) :
  (forall y, In y l -> f y = false) -> f x = true ->
  List.find f (l ++ [x])%list = Some x.
Proof.
  intros Hl Hx. induction l as [|a l IH]; cbn; [rewrite Hx; reflexivity|].
  rewrite (Hl a) by (left; reflexivity). apply IH. intros y Hy. apply Hl. right. exact Hy.
Qed.

Lemma filter_all {A} (f : A -> bool) (l : list A) :
  (forall x, In x l -> f x = true) -> List.filter f l = l.
Proof.
  induction l as [|a l IH]; intros H; [reflexivity|].
  cbn [List.filter]. rewrite (H a) by (left; reflexivity). f_equal.
  apply IH. intros x Hx. apply H. right. exact Hx.
Qed.

Lemma created_participant_id (env : Env) (req : Request) (ev : Event) :
  body req !! "id" = None ->
  get (created_participant env req ev) "id" = generatedId env.
Proof.
  intros Hid. unfold get, created_participant, registration_values, ParticipantModel.defaults.
  rewrite lookup_union_r.
  - rewrite lookup_insert_eq. reflexivity.
  - rewrite !lookup_insert_ne by discriminate. exact Hid.
Qed.

(** X15: deleting the participant a registration has just created undoes
    the registration in both tables.  When the body carries an email and
    names no id, and the
    generated id is not in use, an authorized delete of the generated id
    after the registration (answered 201, or 500 because the queue threw) is
    answered 200 and leaves the Participant rows and all Event counters
    exactly as they were before the registration. *)
Theorem register_then_delete (env env2 : Env) (req req2 : Request) (db : Db) (ev : Event)
    (email : string) :
  get (body req) "email" = VStr email ->
  EventModel.byPk (get (params req) "eventId") (events db) = Some ev ->
  status ev = "published" ->
  ~ capacity_reached ev ->
  List.find (ParticipantModel.registered_as (get (params req) "eventId")
               (get (body req) "email")) (participants db) = None ->
  body req !! "id" = None ->
  (forall row, In row (participants db) -> get row "id" <> generatedId env) ->
  get (params req2) "id" = generatedId env ->
  authorized ev (user req2) ->
  exists db2,
    deleteParticipant env2 req2 (snd (registerParticipant env req db))
      = (res 200 (BMessage "Participant deleted successfully"), db2)
    /\ participants db2 = participants db
    /\ events db2 = events db.
Proof.
  intros _ Hev Hst Hcap Hnew Hid Hfresh Hparam Hauth.
  set (p := created_participant env req ev).
  set (db1 := snd (registerParticipant env req db)).
  assert (Hrows : participants db1 = (participants db ++ [p])%list).
  { unfold db1. rewrite (register_run env req db ev Hev Hst Hcap Hnew).
    destruct (queueThrows env); reflexivity. }
  assert (Hevs : events db1
                 = List.map (fun e =>
                     if String.eqb (event_id e) (event_id ev)
                     then EventModel.add EventModel.TotalRegistrations 1 e else e)
                     (events db)).
  { unfold db1. rewrite (register_run env req db ev Hev Hst Hcap Hnew).
    destruct (queueThrows env); reflexivity. }
  assert (Hpid : get p "id" = generatedId env) by (apply created_participant_id, Hid).
  assert (Hold : forall row, In row (participants db) ->
                   ParticipantModel.has_id (generatedId env) row = false).
  { intros row Hrow. apply bool_decide_eq_false_2, Hfresh, Hrow. }
  assert (Hp1 : ParticipantModel.byPk (get (params req2) "id") (participants db1) = Some p).
  { rewrite Hparam, Hrows. apply find_app_last; [exact Hold|].
    rewrite <- Hpid. apply has_id_self. }
  assert (Hev1 : EventModel.byPk (get p "eventId") (events db1)
                 = Some (EventModel.add EventModel.TotalRegistrations 1 ev)).
  { unfold p, created_participant. rewrite registration_values_eventId, Hevs.
    rewrite (byPk_after_increment _ _ _ _ _ _ Hev), String.eqb_refl. reflexivity. }
  eexists. split.
  { apply (delete_run env2 req2 db1 p _ Hp1 Hev1), authorized_add, Hauth. }
  cbn [participants events set_events set_participants]. split.
  - assert (Hself : ParticipantModel.has_id (generatedId env) p = true)
      by (rewrite <- Hpid; apply has_id_self).
    rewrite Hrows, Hpid, List.filter_app. cbn [List.filter].
    rewrite Hself. cbn [negb]. rewrite app_nil_r.
    apply filter_all. intros row Hrow. rewrite (Hold row Hrow). reflexivity.
  - rewrite Hevs, List.map_map. rewrite <- (List.map_id (events db)) at 2.
    apply List.map_ext. intros e. rewrite event_id_add.
    destruct (String.eqb (event_id e) (event_id ev)) eqn:He.
    + rewrite event_id_add, He. apply sub_add_one.
    + rewrite He. reflexivity.
Qed.

Lemma register_then_delete_witness :
  exists db2,
    deleteParticipant Sample.env Scenario.delete_new (snd (registerParticipant Sample.env
        Sample.dan_to_open Sample.db))
      = (res 200 (BMessage "Participant deleted successfully"), db2)
    /\ participants db2 = participants Sample.db
    /\ events db2 = events Sample.db.
Proof.
  apply (register_then_delete Sample.env Sample.env Sample.dan_to_open Scenario.delete_new
      Sample.db Sample.open_event "dan@x.com").
  - vm_compute; reflexivity.
  - vm_compute; reflexivity.
  - reflexivity.
  - intros (c & Hc & _ & Hle); simpl in Hc, Hle; injection Hc as <-; lia.
  - vm_compute; reflexivity.
  - vm_compute; reflexivity.
  - intros row Hrow; repeat (destruct Hrow as [<-|Hrow]; [vm_compute; discriminate|]); destruct
      Hrow.
  - vm_compute; reflexivity.
  - left; reflexivity.
Defined.

(** ** Ticket numbers *)

Lemma read_byte_to_hex (b : byte) :
  exists c1 c2,
    toUpperCase (byte_to_hex b) = String c1 (String c2 EmptyString)
    /\ read_byte c1 c2 = Some b.
Proof. destruct b; do 2 eexists; split; reflexivity. Qed.

Lemma read_hex_toString_hex (bs : list byte) :
  read_hex (toUpperCase (toString_hex bs)) = Some bs.
Proof.
  induction bs as [|b bs IH]; [reflexivity|].
  cbn [toString_hex]. rewrite toUpperCase_app.
  destruct (read_byte_to_hex b) as (c1 & c2 & -> & Hb).
  change (read_hex (String c1 (String c2 (toUpperCase (toString_hex bs)))) = Some (b :: bs)).
  cbn [read_hex]. rewrite Hb, IH. reflexivity.
Qed.

Lemma append_cancel (p s1 s2 : string) : p +:+ s1 = p +:+ s2 -> s1 = s2.
Proof.
  induction p as [|c p IH]; intros H; [exact H|].
  change (String c (p +:+ s1) = String c (p +:+ s2)) in H.
  injection H as H. auto.
Qed.

(** X16: the ticket number prints the random bytes without loss: two
    ticket numbers are equal only if they were made from the same four
    bytes, so two registrations collide on the ticket number exactly when
    the random source repeats itself. *)
Theorem ticket_determines_bytes (env1 env2 : Env) :
  "TKT-" +:+ toUpperCase (toString_hex (randomBytes env1 4))
  = "TKT-" +:+ toUpperCase (toString_hex (randomBytes env2 4))
  <-> randomBytes env1 4 = randomBytes env2 4.
Proof.
  split; [|intros ->; reflexivity].
  intros H. apply append_cancel in H.
  apply (f_equal read_hex) in H. rewrite !read_hex_toString_hex in H.
  exact (f_equal (from_option (fun bs => bs) []) H).
Qed.

(** ** Listing *)

(** X17: a listing without page and limit asks for the first page of 50:
    for an authorized caller of an existing event, the store is queried with
    limit 50 and offset 0 under the eventId of the path, and what it finds is
    answered as page 1 of ceil(count / 50) pages; if the store rejects the
    query the answer is 500 'Failed to fetch participants'.  The state is
    not changed. *)
Theorem list_default_page (env : Env) (req : Request) (db : Db) (ev : Event) :
  EventModel.byPk (get (params req) "eventId") (events db) = Some ev ->
  authorized ev (user req) ->
  query req !! "page" = None ->
  query req !! "limit" = None ->
  getEventParticipants env req db
  = match findAndCountAll env (listing_where req) (Some 50) (Some 0) (participants db) with
    | Returned (count, rows) =>
        (res 200 (BList rows count (Some 1) (Some ((count + 49) / 50))), db)
    | Thrown _ => (Internal "Failed to fetch participants", db)
    end.
Proof.
  intros Hev Hauth Hpage Hlimit.
  assert (Hp : get (query req) "page" = VUndef) by (unfold get; rewrite Hpage; reflexivity).
  assert (Hl : get (query req) "limit" = VUndef) by (unfold get; rewrite Hlimit; reflexivity).
  unfold getEventParticipants. exec.
  rewrite Hev, (access_denied_false _ _ Hauth), Hp, Hl.
  fold (listing_where req).
  cbn [default or_default parseInt toNumber num_sub num_mul mbind option_bind
       Z.sub Z.mul Z.add Z.opp Z.pos_sub].
  destruct (findAndCountAll env _ _ _ _) as [[count rows]|e]; [|reflexivity].
  cbn [ceil_div mbind option_bind Z.eqb]. do 4 f_equal.
  pose proof (Z.div_mod (- count) 50 ltac:(lia)) as Hd.
  pose proof (Z.mod_pos_bound (- count) 50 ltac:(lia)) as Hm.
  apply Z.div_unique with (r := 49 - (- count) mod 50); lia.
Qed.

Lemma list_default_page_witness :
  getEventParticipants Sample.env Scenario.list_open Sample.db
  = match findAndCountAll Sample.env (listing_where Scenario.list_open) (Some 50) (Some 0)
      (participants Sample.db) with
    | Returned (count, rows) =>
        (res 200 (BList rows count (Some 1) (Some ((count + 49) / 50))), Sample.db)
    | Thrown _ => (Internal "Failed to fetch participants", Sample.db)
    end.
Proof.
  apply (list_default_page Sample.env Scenario.list_open Sample.db Sample.open_event).
  - vm_compute; reflexivity.
  - left; reflexivity.
  - vm_compute; reflexivity.
  - vm_compute; reflexivity.
Defined.

(** [parseInt] on some query strings. *)
Example parseInt_samples :
  parseInt (VStr "10px") = Some 10
  /\ parseInt (VStr "  42") = Some 42
  /\ parseInt (VStr "-5") = Some (-5)
  /\ parseInt (VStr "0x1f") = Some 31
  /\ parseInt (VStr "") = None
  /\ parseInt (VStr "abc") = None
  /\ parseInt VNull = None.
Proof. repeat split; reflexivity. Qed.

(** ** Missing rows *)

(** X18: a missing row is reported before the caller is looked at: for any
    caller, get-by-id, update, delete and single check-in of an id that names
    no participant are answered 404 'Participant not found', and a listing
    for an event that does not exist is answered 404 'Event not found'; the
    state is not changed. *)
Theorem not_found_before_authorization (env : Env) (req : Request) (db : Db) :
  (ParticipantModel.byPk (get (params req) "id") (participants db) = None ->
   getParticipantById env req db = (ParticipantNotFound, db)
   /\ updateParticipant env req db = (ParticipantNotFound, db)
   /\ deleteParticipant env req db = (ParticipantNotFound, db)
   /\ checkInParticipant env req db = (ParticipantNotFound, db))
  /\ (EventModel.byPk (get (params req) "eventId") (events db) = None ->
      getEventParticipants env req db = (EventNotFound, db)).
Proof.
  split.
  - intros Hp. repeat split.
    + unfold getParticipantById. exec. rewrite Hp. reflexivity.
    + unfold updateParticipant. exec. rewrite Hp. reflexivity.
    + unfold deleteParticipant. exec. rewrite Hp. reflexivity.
    + unfold checkInParticipant. exec. rewrite Hp. reflexivity.
  - intros Hev. unfold getEventParticipants. exec. rewrite Hev. reflexivity.
Qed.

Lemma not_found_before_authorization_witness :
  (getParticipantById Sample.env Scenario.unknown_p9 Sample.db
     = (ParticipantNotFound, Sample.db)
   /\ updateParticipant Sample.env Scenario.unknown_p9 Sample.db
     = (ParticipantNotFound, Sample.db)
   /\ deleteParticipant Sample.env Scenario.unknown_p9 Sample.db
     = (ParticipantNotFound, Sample.db)
   /\ checkInParticipant Sample.env Scenario.unknown_p9 Sample.db
     = (ParticipantNotFound, Sample.db))
  /\ getEventParticipants Sample.env Scenario.unknown_event Sample.db
     = (EventNotFound, Sample.db).
Proof.
  split.
  - apply (proj1 (not_found_before_authorization Sample.env Scenario.unknown_p9 Sample.db)).
    vm_compute; reflexivity.
  - apply (proj2 (not_found_before_authorization Sample.env Scenario.unknown_event
             Sample.db)).
    vm_compute; reflexivity.
Defined.
